(** * API Faturamento NFS-e: scraping, pagination, monthly totals, handler

    A shallow embedding of [api_faturamento_nfse.py].

    - Python [str] is modelled as [string], one character per byte: the
      texts whose characters have code points 0 to 255. Among these the
      decimal digits are 0 to 9, and white space is as listed at
      [Py.isspace]; texts with characters of higher code points (other
      Unicode digits and spaces among them) are outside the model.
      [int] is [Z], [float] the kernel's binary64 [float], [Optional[T]]
      is [option T].
    - An HTML document is represented by what the BeautifulSoup queries of
      the source return on it (records [linha] and [pagina]).
    - [requests] and the portal are external: a session answers each URL
      with a response or a transport failure; every network call is logged
      in a trace of events. *)

From Stdlib Require Import ZArith List String Ascii Bool Lia.
From Stdlib Require Import DecimalString DecimalZ DecimalPos.
From Stdlib Require Import PrimFloat SpecFloat FloatOps FloatAxioms.
Import ListNotations.

Set Warnings "-inexact-float".

Open Scope string_scope.
Open Scope list_scope.
Open Scope Z_scope.

(** ** Python built-ins used by the source *)

Module Py.

(** [str(n)] for an [int]. *)
Definition str (n : Z) : string := NilEmpty.string_of_int (Z.to_int n).

(** [f"{n:02d}"]: decimal, zero-filled to width 2 (only a single digit
    is shorter than the width, a sign already fills it). *)
Definition fmt_02d (n : Z) : string :=
  let s := str n in
  if (String.length s <? 2)%nat then "0" ++ s else s.

(** The value of a decimal digit, [None] for any other character (of
    the code points 0 to 255, only 0 to 9 are decimal digits). *)
Definition digito (c : ascii) : option Z :=
  let n := Z.of_nat (nat_of_ascii c) in
  if (48 <=? n) && (n <=? 57) then Some (n - 48) else None.

Definition e_digito (c : ascii) : bool :=
  match digito c with Some _ => true | None => false end.

(** White space as [str.strip()] sees it among the code points 0 to 255:
    TAB, LF, VT, FF, CR, FS, GS, RS, US, space, NEL (133) and the
    no-break space (160). *)
Definition isspace (c : ascii) : bool :=
  let n := nat_of_ascii c in
  ((9 <=? n) && (n <=? 13) || (28 <=? n) && (n <=? 32) || (n =? 133) || (n =? 160))%nat.

Fixpoint lstrip (s : string) : string :=
  match s with
  | String c r => if isspace c then lstrip r else s
  | EmptyString => EmptyString
  end.

Fixpoint rstrip (s : string) : string :=
  match s with
  | String c r =>
      match rstrip r with
      | EmptyString => if isspace c then EmptyString else String c EmptyString
      | r' => String c r'
      end
  | EmptyString => EmptyString
  end.

Definition strip (s : string) : string := rstrip (lstrip s).

(** White space as [float()] strips it: TAB, LF, VT, FF, CR, space, NEL
    and the no-break space (the separators FS, GS, RS and US stay, and
    make the text malformed). *)
Definition isspace_c (c : ascii) : bool :=
  let n := nat_of_ascii c in
  ((9 <=? n) && (n <=? 13) || (n =? 32) || (n =? 133) || (n =? 160))%nat.

Fixpoint lstrip_c (s : string) : string :=
  match s with
  | String c r => if isspace_c c then lstrip_c r else s
  | EmptyString => EmptyString
  end.

Fixpoint rstrip_c (s : string) : string :=
  match s with
  | String c r =>
      match rstrip_c r with
      | EmptyString => if isspace_c c then EmptyString else String c EmptyString
      | r' => String c r'
      end
  | EmptyString => EmptyString
  end.

Definition strip_c (s : string) : string := rstrip_c (lstrip_c s).

(** [s.replace(old, new)] for a one-character [old]. *)
Fixpoint replace (old : ascii) (new : string) (s : string) : string :=
  match s with
  | String c r =>
      (if Ascii.eqb c old then new else String c EmptyString) ++ replace old new r
  | EmptyString => EmptyString
  end.

(** [sub in s]. *)
Fixpoint contem (sub s : string) : bool :=
  String.prefix sub s ||
  match s with
  | String _ r => contem sub r
  | EmptyString => false
  end.

(** [s.split('\n')[0]] *)
Fixpoint primeira_linha (s : string) : string :=
  match s with
  | String c r =>
      if Ascii.eqb c "010"%char then EmptyString else String c (primeira_linha r)
  | EmptyString => EmptyString
  end.

(** [int(s)] on a string of ASCII digits, most significant first;
    [acc] is the value of the digits already read. *)
Fixpoint int_digitos (acc : Z) (s : string) : Z :=
  match s with
  | String c r =>
      match digito c with
      | Some d => int_digitos (10 * acc + d) r
      | None => acc
      end
  | EmptyString => acc
  end.

(** *** [float(s)]

    The grammar CPython accepts, after stripping white space ([strip_c]) and
    removing underscores that stand between two digits: an optional
    sign, then digits with an optional point among them (at least one
    digit in all), then an optional exponent (e or E, an optional sign,
    one digit or more); or, in any letter case, an optional sign and
    one of inf, infinity, nan. The value is the decimal
    number rounded to the nearest binary64, ties to even; a magnitude
    beyond the largest finite one gives an infinity. A string outside
    the grammar raises [ValueError], here [None]. *)

(** The nearest binary64 to [(-1)^neg * n / d], for [0 <= n] and [0 < d]. *)
Definition arredonda (neg : bool) (n d : Z) : float :=
  match n with
  | Z0 => SF2Prim (S754_zero neg)
  | _ =>
      let '(q, e, l) := SFdiv_core_binary prec emax n 0 d 0 in
      SF2Prim (binary_round_aux prec emax neg q e l)
  end.

(** Underscores: each one must follow a digit and precede a digit;
    [prev] is the previous character. The result drops them. *)
Fixpoint sem_sublinhados (prev : ascii) (s : string) : option string :=
  match s with
  | String c r =>
      if Ascii.eqb c "_"%char then
        if e_digito prev then
          match r with
          | String c' _ => if e_digito c' then sem_sublinhados c r else None
          | EmptyString => None
          end
        else None
      else option_map (String c) (sem_sublinhados c r)
  | EmptyString => Some EmptyString
  end.

(** Splits off the longest prefix of digits. *)
Fixpoint digitos (s : string) : string * string :=
  match s with
  | String c r =>
      if e_digito c then let '(d, t) := digitos r in (String c d, t)
      else (EmptyString, s)
  | EmptyString => (EmptyString, EmptyString)
  end.

(** An optional sign: [true] for [-]. *)
Definition sinal (s : string) : bool * string :=
  match s with
  | String "-" r => (true, r)
  | String "+" r => (false, r)
  | _ => (false, s)
  end.

Definition minuscula (c : ascii) : ascii :=
  let n := nat_of_ascii c in
  if ((65 <=? n) && (n <=? 90))%nat then ascii_of_nat (n + 32) else c.

Fixpoint minusculas (s : string) : string :=
  match s with
  | String c r => String (minuscula c) (minusculas r)
  | EmptyString => EmptyString
  end.

(** The exponent part, which must reach the end of the string. *)
Definition expoente (s : string) : option Z :=
  match s with
  | EmptyString => Some 0
  | String c r =>
      if Ascii.eqb (minuscula c) "e"%char then
        let '(neg, r1) := sinal r in
        match digitos r1 with
        | (String _ _ as ds, EmptyString) =>
            let v := int_digitos 0 ds in Some (if neg then - v else v)
        | _ => None
        end
      else None
  end.

Definition float_decimal (neg : bool) (s : string) : option float :=
  let '(ip, r) := digitos s in
  let '(fp, r1) :=
    match r with
    | String "." r' => digitos r'
    | _ => (EmptyString, r)
    end in
  match (ip ++ fp)%string with
  | EmptyString => None
  | ds =>
      match expoente r1 with
      | Some ex =>
          let m := int_digitos 0 ds in
          let e := ex - Z.of_nat (String.length fp) in
          Some (if 0 <=? e then arredonda neg (m * 10 ^ e) 1
                else arredonda neg m (10 ^ (- e)))
      | None => None
      end
  end.

Definition float (s : string) : option float :=
  match sem_sublinhados "000"%char (strip_c s) with
  | None => None
  | Some t =>
      let '(neg, r) := sinal t in
      let low := minusculas r in
      if String.eqb low "inf" || String.eqb low "infinity" then
        Some (if neg then neg_infinity else infinity)
      else if String.eqb low "nan" then Some nan
      else float_decimal neg r
  end.

(** [sum(xs)] of floats: addition from the left, starting at zero.
    (CPython 3.12 and later carry a correction term along; the result is
    the same whenever no addition rounds.) *)
Definition sum (xs : list PrimFloat.float) : PrimFloat.float :=
  fold_left PrimFloat.add xs 0%float.

End Py.

(** ** Data model *)

(** One invoice as the scraper records it: the dict with the keys
    ['mes'], ['ano'], ['valor'] and ['status']. The type of the amount is
    a parameter; the program uses binary64 floats. *)
Record nota (V : Type) : Type := Nota {
  mes : Z;
  ano : Z;
  valor : V;
  status : string
}.

Arguments Nota {V} _ _ _ _.
Arguments mes {V} _.
Arguments ano {V} _.
Arguments valor {V} _.
Arguments status {V} _.

(** A row [<tr>] of the listing, seen through the queries of the source:
    - [td_competencia]: the stripped text of the first cell of class
      [td-competencia], if there is one,
    - [data_situacao]: the attribute [data-situacao], if present,
    - [td_valor]: the stripped text of the first cell of class [td-valor]. *)
Record linha : Type := Linha {
  td_competencia : option string;
  data_situacao : option string;
  td_valor : option string
}.

(** A page of the portal, seen through the queries of the source:
    - [tbody]: the rows of the first [<tbody>], if there is one,
    - [proxima]: whether the [div] of class [paginacao] exists and holds
      a link titled [Próxima],
    - [perfil]: the header of the profile menu, as its text and the text
      of its [span] of class [cnpj], when these elements exist. *)
Record pagina : Type := Pagina {
  tbody : option (list linha);
  proxima : bool;
  perfil : option (string * option string)
}.

(** ** Page scraper *)

(** A match of [(\d{2})/(\d{4})] at the head of the text: the two groups. *)
Definition casa_competencia (s : string) : option (string * string) :=
  match s with
  | String a (String b (String "/" (String c (String d (String e (String f _)))))) =>
      if Py.e_digito a && Py.e_digito b && Py.e_digito c && Py.e_digito d
         && Py.e_digito e && Py.e_digito f
      then Some (String a (String b ""), String c (String d (String e (String f ""))))
      else None
  | _ => None
  end.

(** [re.search(r'(\d{2})/(\d{4})', s)]: the leftmost match. *)
Fixpoint re_competencia (s : string) : option (string * string) :=
  match casa_competencia s with
  | Some g => Some g
  | None =>
      match s with
      | String _ r => re_competencia r
      | EmptyString => None
      end
  end.

(** The month and year of a row, when its competence cell holds a date. *)
Definition competencia (l : linha) : option (Z * Z) :=
  match td_competencia l with
  | None => None
  | Some txt =>
      match re_competencia txt with
      | None => None
      | Some (g1, g2) => Some (Py.int_digitos 0 g1, Py.int_digitos 0 g2)
      end
  end.

(** [float(valor_txt.replace('.', '').replace(',', '.'))] *)
Definition parse_valor (valor_txt : string) : option float :=
  Py.float (Py.replace "," "." (Py.replace "." "" valor_txt)).

(** What one turn of the loop over the rows does. *)
Inductive passo : Type :=
| Continue              (* [continue]: the row is skipped *)
| Break                 (* [continuar = False; break] *)
| Append (n : nota float).  (* [notas.append(...)] *)

(** The body of the [for] loop of [processar_pagina]; an exception raised
    in it ([float] on a malformed amount) is caught by [except: continue]. *)
Definition processar_linha (l : linha) (ano : Z) (mes_filtro : option Z) : passo :=
  match competencia l with
  | None => Continue
  | Some (mes_nota, ano_nota) =>
      if negb (ano_nota =? ano) then Break
      else if match mes_filtro with
              | Some m => mes_nota <? m
              | None => false
              end then Break
      else if match mes_filtro with
              | Some m => negb (mes_nota =? m)
              | None => false
              end then Continue
      else
        let status_cod := match data_situacao l with Some s => s | None => "" end in
        if negb (Py.contem "GERADA" status_cod) then Continue
        else
          match td_valor l with
          | None => Continue
          | Some valor_txt =>
              match parse_valor valor_txt with
              | None => Continue
              | Some v => Append (Nota mes_nota ano_nota v "Autorizada")
              end
          end
  end.

(** The loop over the rows: the records appended, in row order, and the
    flag [continuar]. *)
Fixpoint processar_linhas (linhas : list linha) (ano : Z) (mes_filtro : option Z)
  : list (nota float) * bool :=
  match linhas with
  | [] => ([], true)
  | l :: r =>
      match processar_linha l ano mes_filtro with
      | Continue => processar_linhas r ano mes_filtro
      | Break => ([], false)
      | Append n =>
          let '(notas, continuar) := processar_linhas r ano mes_filtro in
          (n :: notas, continuar)
      end
  end.

Definition processar_pagina (html : pagina) (ano : Z) (mes_filtro : option Z)
  : list (nota float) * bool :=
  match tbody html with
  | None => ([], false)
  | Some linhas => processar_linhas linhas ano mes_filtro
  end.

(** ** Aggregator *)

Section Totais.

(** The amounts, their zero and their addition. *)
Context {V : Type} (zero : V) (add : V -> V -> V).

(** A Python dict with string keys, in insertion order. *)
Definition dict : Type := list (string * V).

Fixpoint dict_get (k : string) (d : dict) : option V :=
  match d with
  | [] => None
  | (k', v) :: r => if String.eqb k' k then Some v else dict_get k r
  end.

(** [d[k] = v] *)
Fixpoint dict_set (k : string) (v : V) (d : dict) : dict :=
  match d with
  | [] => [(k, v)]
  | (k', v') :: r =>
      if String.eqb k' k then (k', v) :: r else (k', v') :: dict_set k v r
  end.

(** [f"{mes:02d}/{ano}"] *)
Definition chave (mes ano : Z) : string := Py.fmt_02d mes ++ "/" ++ Py.str ano.

(** [range(1, 13)] *)
Definition meses_do_ano : list Z := map Z.of_nat (seq 1 12).

(** The dict before any record is added. *)
Definition meses_iniciais (ano : Z) (mes_filtro : option Z) : dict :=
  match mes_filtro with
  | Some m => dict_set (chave m ano) zero []
  | None => fold_left (fun meses m => dict_set (chave m ano) zero meses) meses_do_ano []
  end.

(** One turn of the summing loop: [if chave in meses: meses[chave] += valor]. *)
Definition soma_nota (meses : dict) (n : nota V) : dict :=
  let k := chave (mes n) (ano n) in
  match dict_get k meses with
  | Some v => dict_set k (add v (valor n)) meses
  | None => meses
  end.

Definition totalizar_por_mes_em (notas : list (nota V)) (ano : Z) (mes_filtro : option Z)
  : dict :=
  fold_left soma_nota notas (meses_iniciais ano mes_filtro).

(** [sum(...)] over amounts: from the left, starting at zero. *)
Definition soma (xs : list V) : V := fold_left add xs zero.

End Totais.

(** The aggregator of the program, on binary64 amounts. *)
Definition totalizar_por_mes : list (nota float) -> Z -> option Z -> dict :=
  totalizar_por_mes_em 0%float PrimFloat.add.

(** ** Effects: exceptions and the trace of external calls *)

(** [HTTPException(status_code, detail)] *)
Record HTTPException : Type := mkHTTPException {
  status_code : Z;
  detail : string
}.

(** What a call may raise: an [HTTPException], or any other exception
    [e], kept as [str(e)]. *)
Inductive excecao : Type :=
| ExcHTTP (e : HTTPException)
| ExcOutra (msg : string).

(** The calls that leave the process, in the order they are made. *)
Inductive evento : Type :=
| EvAutenticarCertificado (cert_base64 senha : string)
| EvAutenticarLogin (cnpj senha : string)
| EvGet (url : string)
| EvLimparTemp.

Inductive resultado (A : Type) : Type :=
| Retorna (a : A)
| Levanta (e : HTTPException)
| SemFuel.               (* the loop did not end within the fuel given *)

Arguments Retorna {A} _.
Arguments Levanta {A} _.
Arguments SemFuel {A}.

(** A computation: the events it emitted and how it ended. *)
Definition M (A : Type) : Type := list evento * resultado A.

Definition ret {A} (a : A) : M A := ([], Retorna a).

Definition raise {A} (e : HTTPException) : M A := ([], Levanta e).

Definition tell (ev : evento) : M unit := ([ev], Retorna tt).

Definition bind {A B} (m : M A) (k : A -> M B) : M B :=
  match m with
  | (t, Retorna a) => let '(t', r) := k a in (t ++ t', r)
  | (t, Levanta e) => (t, Levanta e)
  | (t, SemFuel) => (t, SemFuel)
  end.

Notation "x <- m ;; k" := (bind m (fun x => k))
  (at level 61, m at next level, right associativity).
Notation "m ;;; k" := (bind m (fun _ => k))
  (at level 61, right associativity).

(** ** The portal seen through [requests] *)

(** What [session.get(url, timeout=30)] gives: an exception [e] with
    [str(e) = msg], or a response with its status and its document. *)
Inductive resposta : Type :=
| Excecao (msg : string)
| Resposta (status : Z) (text : pagina).

(** An authenticated session: the answer of the portal to each URL. *)
Record sessao : Type := Sessao { get : string -> resposta }.

(** [session.get(url)] where [session] may still be [None]. *)
Definition session_get (session : option sessao) (url : string) : M resposta :=
  match session with
  | None => ret (Excecao "'NoneType' object has no attribute 'get'")
  | Some s => tell (EvGet url) ;;; ret (get s url)
  end.

(** ** Paginator *)

Definition base_url : string := "https://www.nfse.gov.br/EmissorNacional/Notas/Emitidas".

Definition url_pagina (pagina : Z) : string :=
  if pagina =? 1 then base_url else base_url ++ "?pg=" ++ Py.str pagina.

(** The [while True] loop of [consultar_notas], entered with the records
    gathered so far and the page index; [fuel] bounds the number of turns. *)
Fixpoint consultar_notas_de (fuel : nat) (session : option sessao) (ano : Z)
  (mes_filtro : option Z) (todas_notas : list (nota float)) (pagina : Z)
  : M (list (nota float)) :=
  match fuel with
  | O => ([], SemFuel)
  | S fuel' =>
      resp <- session_get session (url_pagina pagina) ;;
      match resp with
      | Excecao msg =>
          raise (mkHTTPException 500
                   ("Erro ao consultar página " ++ Py.str pagina ++ ": " ++ msg))
      | Resposta status text =>
          if negb (status =? 200) then ret todas_notas
          else
            let '(notas, continuar) := processar_pagina text ano mes_filtro in
            let todas_notas := (todas_notas ++ notas)%list in
            if negb continuar then ret todas_notas
            else if negb (proxima text) then ret todas_notas
            else consultar_notas_de fuel' session ano mes_filtro todas_notas (pagina + 1)
      end
  end.

Definition consultar_notas (fuel : nat) (session : option sessao) (ano : Z)
  (mes_filtro : option Z) : M (list (nota float)) :=
  consultar_notas_de fuel session ano mes_filtro [] 1.

(** ** Contributor lookup *)

Definition extrair_contribuinte (session : option sessao) : M (string * string) :=
  resp <- session_get session base_url ;;
  match resp with
  | Excecao _ => ret ("N/A", "N/A")
  | Resposta _ text =>
      match perfil text with
      | Some (texto, cnpj_span) =>
          let nome := Py.strip (Py.primeira_linha (Py.strip texto)) in
          let cnpj := match cnpj_span with Some c => c | None => "N/A" end in
          ret (cnpj, nome)
      | None => ret ("N/A", "N/A")
      end
  end.

(** ** Request and response *)

Module ConsultaRequest.
Record t : Type := mk {
  auth_method : Z;
  ano : Z;
  mes : option Z;
  cert_base64 : option string;
  cert_senha : option string;
  cnpj : option string;
  senha : option string
}.

(** The three validators of the request model. *)
Definition valido (req : t) : bool :=
  ((auth_method req =? 1) || (auth_method req =? 2))
  && negb ((ano req <? 2000) || (ano req >? 2100))
  && match mes req with
     | Some v => negb ((v <? 1) || (v >? 12))
     | None => true
     end.
End ConsultaRequest.

Module ConsultaResponse.
Record t : Type := mk {
  cnpj : string;
  razao_social : string;
  ano : Z;
  mes_filtrado : option Z;
  quantidade_autorizadas : Z;
  total_autorizado : float;
  total_cancelado : float;
  detalhamento_por_mes : @dict float
}.
End ConsultaResponse.

(** ** Request handler *)

(** [not x] for an optional string: [None] and the empty string are falsy. *)
Definition falsy (x : option string) : bool :=
  match x with
  | None | Some EmptyString => true
  | Some _ => false
  end.

Definition texto (x : option string) : string :=
  match x with Some s => s | None => EmptyString end.

Section Consultar.

(** The two authenticators, external to this development: they load the
    credentials, talk to the portal and give a session or raise.
    [autenticar_login] turns whatever is raised into an [HTTPException];
    [autenticar_certificado] writes the key material to temporary files
    outside any [try], so it may raise another exception as well. *)
Variable autenticar_certificado : string -> string -> excecao + sessao.
Variable autenticar_login : string -> string -> HTTPException + sessao.

Definition autenticado (r : HTTPException + sessao) : M (option sessao) :=
  match r with
  | inl e => raise e
  | inr s => ret (Some s)
  end.

(** The outcome of [autenticar_certificado] as the [try] of [consultar]
    sees it: an [HTTPException] passes ([except HTTPException: raise]),
    any other exception becomes one of status 500
    ([except Exception as e]). *)
Definition autenticado_certificado (r : excecao + sessao) : M (option sessao) :=
  match r with
  | inl (ExcHTTP e) => raise e
  | inl (ExcOutra msg) => raise (mkHTTPException 500 ("Erro inesperado: " ++ msg))
  | inr s => ret (Some s)
  end.

(** Validation of the credential fields and authentication: the value of
    [session] when the first block of the [try] is over. *)
Definition autenticar (req : ConsultaRequest.t) : M (option sessao) :=
  if ConsultaRequest.auth_method req =? 1 then
    if falsy (ConsultaRequest.cert_base64 req) then
      raise (mkHTTPException 400 "Campo obrigatório: cert_base64")
    else if falsy (ConsultaRequest.cert_senha req) then
      raise (mkHTTPException 400 "Campo obrigatório: cert_senha")
    else
      let c := texto (ConsultaRequest.cert_base64 req) in
      let s := texto (ConsultaRequest.cert_senha req) in
      tell (EvAutenticarCertificado c s) ;;;
      autenticado_certificado (autenticar_certificado c s)
  else if ConsultaRequest.auth_method req =? 2 then
    if falsy (ConsultaRequest.cnpj req) then
      raise (mkHTTPException 400 "Campo obrigatório: cnpj")
    else if falsy (ConsultaRequest.senha req) then
      raise (mkHTTPException 400 "Campo obrigatório: senha")
    else
      let c := texto (ConsultaRequest.cnpj req) in
      let s := texto (ConsultaRequest.senha req) in
      tell (EvAutenticarLogin c s) ;;; autenticado (autenticar_login c s)
  else ret None.

(** The rest of the [try] block, once [session] is set. *)
Definition responder (fuel : nat) (req : ConsultaRequest.t) (session : option sessao)
  : M ConsultaResponse.t :=
  contribuinte <- extrair_contribuinte session ;;
  let '(cnpj, razao_social) := contribuinte in
  notas <- consultar_notas fuel session (ConsultaRequest.ano req) (ConsultaRequest.mes req) ;;
  let total_autorizado := Py.sum (map valor notas) in
  let qtd_autorizadas := Z.of_nat (List.length notas) in
  let detalhamento :=
    totalizar_por_mes notas (ConsultaRequest.ano req) (ConsultaRequest.mes req) in
  ret (ConsultaResponse.mk cnpj razao_social (ConsultaRequest.ano req)
         (ConsultaRequest.mes req) qtd_autorizadas total_autorizado 0%float detalhamento).

(** [consultar]: the [finally] clause cleans up when [session] is set.
    Of the calls of the [try] block only [autenticar_certificado] lets an
    exception other than [HTTPException] through ([autenticar_login] and
    [consultar_notas] wrap whatever is raised, [extrair_contribuinte]
    catches it); [except Exception] is applied to it in
    [autenticado_certificado]. When authentication raises, [session] is
    still [None] and nothing is cleaned up. *)
Definition consultar (fuel : nat) (req : ConsultaRequest.t) : M ConsultaResponse.t :=
  match autenticar req with
  | (t, Retorna session) =>
      let '(t', r) := responder fuel req session in
      let limpeza :=
        match session, r with
        | Some _, (Retorna _ | Levanta _) => [EvLimparTemp]
        | _, _ => []
        end in
      (t ++ t' ++ limpeza, r)
  | (t, Levanta e) => (t, Levanta e)
  | (t, SemFuel) => (t, SemFuel)
  end.

End Consultar.

(** ** Definitions used to state the properties *)

(** The stop conditions in the words of the specification: the row holds
    a competence date whose year differs from the target year or, under a
    month filter, whose month is strictly less than the filtered month. *)
Definition condicao_parada (l : linha) (ano_alvo : Z) (mes_filtro : option Z) : bool :=
  match competencia l with
  | Some (m, a) =>
      negb (a =? ano_alvo)
      || match mes_filtro with
         | Some f => m <? f
         | None => false
         end
  | None => false
  end.

(** The status marker of a row says generated/authorized. *)
Definition gerada (l : linha) : bool :=
  Py.contem "GERADA" (match data_situacao l with Some s => s | None => "" end).

(** A row with the three cells present. *)
Definition linha_de (comp situacao valor_txt : string) : linha :=
  Linha (Some comp) (Some situacao) (Some valor_txt).

(** A page with a table body, no next page and no profile. *)
Definition pagina_de (linhas : list linha) : pagina :=
  Pagina (Some linhas) false None.

(** A page listing the current year and then the year before. *)
Definition pagina_dois_anos : pagina :=
  pagina_de [linha_de "05/2025" "GERADA" "200,00";
             linha_de "12/2024" "GERADA" "1,00";
             linha_de "03/2025" "GERADA" "100,00"].

(** A page without a listing table. *)
Definition pagina_sem_tbody : pagina := Pagina None true None.

(** Reading back the decimal text of an integer. *)
Definition de_texto (s : string) : option Z :=
  option_map Z.of_int (NilEmpty.int_of_string s).

(** The text has no slash. *)
Fixpoint sem_barra (s : string) : bool :=
  match s with
  | String c r => negb (Ascii.eqb c "/") && sem_barra r
  | EmptyString => true
  end.

(** The records of month [m] of year [a]. *)
Definition do_mes {V : Type} (m a : Z) (n : nota V) : bool :=
  (mes n =? m) && (ano n =? a).

(** A page under the month filter 3: a newer month, the month itself,
    an older month, and the month again. *)
Definition pagina_marco : pagina :=
  pagina_de [linha_de "04/2025" "GERADA" "10,00";
             linha_de "03/2025" "GERADA" "100,00";
             linha_de "02/2025" "GERADA" "5,00";
             linha_de "03/2025" "GERADA" "7,00"].

(** The months a query is about. *)
Definition meses_em_escopo (mes_filtro : option Z) : list Z :=
  match mes_filtro with
  | Some m => [m]
  | None => meses_do_ano
  end.

(** Three authorized invoices: two of March and one of May 2025. *)
Definition notas_tres : list (nota float) :=
  [Nota 3 2025 100%float "Autorizada";
   Nota 3 2025 50.5%float "Autorizada";
   Nota 5 2025 200%float "Autorizada"].

Definition pagina_tres : pagina :=
  Pagina
    (Some [linha_de "03/2025" "GERADA" "100,00";
           linha_de "03/2025" "GERADA" "50,50";
           linha_de "05/2025" "GERADA" "200,00"])
    false
    (Some ((" EMPRESA EXEMPLO LTDA " ++ String "010" "12.345.678/0001-90")%string,
           Some "12.345.678/0001-90")).

(** A portal that answers every URL with [pagina_tres]. *)
Definition sessao_tres : sessao := Sessao (fun _ => Resposta 200 pagina_tres).

(** A request by login and password for the whole year 2025. *)
Definition req_login_2025 : ConsultaRequest.t :=
  ConsultaRequest.mk 2 2025 None None None (Some "12345678000190") (Some "segredo").

(** The page indices [p], [p + 1], ... ([k] of them). *)
Fixpoint paginas_desde (p : Z) (k : nat) : list Z :=
  match k with
  | O => []
  | S k' => p :: paginas_desde (p + 1) k'
  end.

(** Page [p] lets the paginator go on to the next one: status 200, the
    scraper asks to continue, and a next page is announced. *)
Definition passa (s : sessao) (ano_alvo : Z) (mes_filtro : option Z) (p : Z) : bool :=
  match get s (url_pagina p) with
  | Resposta st text =>
      (st =? 200) && snd (processar_pagina text ano_alvo mes_filtro) && proxima text
  | Excecao _ => false
  end.

(** The records of page [p]. *)
Definition notas_da_pagina (s : sessao) (ano_alvo : Z) (mes_filtro : option Z) (p : Z)
  : list (nota float) :=
  match get s (url_pagina p) with
  | Resposta _ text => fst (processar_pagina text ano_alvo mes_filtro)
  | Excecao _ => []
  end.

(** A portal whose first page lists one invoice and announces a next
    page, and whose every other page answers with status 500. *)
Definition sessao_erro_500 : sessao :=
  Sessao (fun url =>
            if String.eqb url base_url
            then Resposta 200 (Pagina (Some [linha_de "05/2025" "GERADA" "200,00"]) true None)
            else Resposta 500 (Pagina None false None)).

(** The same first page, with a connection that drops on every other page. *)
Definition sessao_queda : sessao :=
  Sessao (fun url =>
            if String.eqb url base_url
            then Resposta 200 (Pagina (Some [linha_de "05/2025" "GERADA" "200,00"]) true None)
            else Excecao "Connection aborted.").

(** The trace of fetching the pages [ps]. *)
Definition gets (ps : list Z) : list evento := map (fun p => EvGet (url_pagina p)) ps.

(** Two rows that differ at most where a row that is not generated is
    never read: same competence cell and, unless they are the same row,
    neither marked as generated. *)
Definition linhas_equiv (l l' : linha) : Prop :=
  l = l' \/
  (td_competencia l = td_competencia l' /\ gerada l = false /\ gerada l' = false).

Definition paginas_equiv (p p' : pagina) : Prop :=
  proxima p = proxima p' /\ perfil p = perfil p' /\
  match tbody p, tbody p' with
  | Some ls, Some ls' => Forall2 linhas_equiv ls ls'
  | None, None => True
  | _, _ => False
  end.

Definition respostas_equiv (r r' : resposta) : Prop :=
  match r, r' with
  | Excecao m, Excecao m' => m = m'
  | Resposta st p, Resposta st' p' => st = st' /\ paginas_equiv p p'
  | _, _ => False
  end.

Definition sessoes_equiv (s s' : sessao) : Prop :=
  forall url, respostas_equiv (get s url) (get s' url).

(** A portal with one page: a cancelled invoice of the given amount
    text, then an authorized one. *)
Definition sessao_cancelada (valor_txt : string) : sessao :=
  Sessao (fun _ =>
            Resposta 200
              (pagina_de [linha_de "03/2025" "CANCELADA" valor_txt;
                          linha_de "03/2025" "GERADA" "100,00"])).

(** The shape of the records the claim on consistency is about: the
    requested year and, under a month filter, the filtered month;
    [no_calendario] adds that, without a filter, the month is one of the
    twelve. *)
Definition no_escopo {V : Type} (a : Z) (mes_filtro : option Z) (n : nota V) : Prop :=
  ano n = a /\
  match mes_filtro with
  | Some m => mes n = m
  | None => True
  end.

Definition no_calendario {V : Type} (mes_filtro : option Z) (n : nota V) : Prop :=
  match mes_filtro with
  | Some _ => True
  | None => 1 <= mes n <= 12
  end.

(** A record of a thirteenth month, as the scraper gives it for a row
    whose competence cell reads 13/2025. *)
Definition notas_mes_13 : list (nota float) := [Nota 13 2025 100%float "Autorizada"].

(** Records of January and February whose amounts do not add up the
    same way in binary64 when grouped by month. *)
Definition notas_arredondamento : list (nota float) :=
  [Nota 2 2025 1%float "Autorizada";
   Nota 1 2025 10000000000000000%float "Autorizada";
   Nota 2 2025 1%float "Autorizada";
   Nota 1 2025 1%float "Autorizada";
   Nota 1 2025 1%float "Autorizada"].

(** ** Login authenticator *)

(** [re.sub(r'[^\d]', '', cnpj)]: the digits of the identifier, in order. *)
Fixpoint cnpj_limpo (cnpj : string) : string :=
  match cnpj with
  | String c r => if Py.e_digito c then String c (cnpj_limpo r) else cnpj_limpo r
  | EmptyString => EmptyString
  end.

(** What the GET of the login page gives: an exception, or a page seen
    through the query for the input named [__RequestVerificationToken]
    (absent, present without a [value], or present with one). *)
Inductive resposta_login : Type :=
| LoginExcecao (msg : string)
| LoginPagina (token_input : option (option string)).

(** What the POST of the login form gives: an exception, or the session
    after the redirects, with whether its cookies hold [Emissor]. *)
Inductive resposta_post : Type :=
| PostExcecao (msg : string)
| PostFeito (emissor : bool) (s : sessao).

(** The portal as the login sees it; [post_login] takes the token, the
    field [Inscricao] and the field [Senha] of the form. *)
Record portal_login : Type := PortalLogin {
  get_login : resposta_login;
  post_login : string -> string -> string -> resposta_post
}.

(** [autenticar_login]: an [HTTPException] raised in the [try] passes
    through, any other exception becomes one of status 401. *)
Definition autenticar_login (portal : portal_login) (cnpj senha : string)
  : HTTPException + sessao :=
  match get_login portal with
  | LoginExcecao msg => inl (mkHTTPException 401 msg)
  | LoginPagina token_input =>
      let token :=
        match token_input with
        | Some (Some v) => v
        | Some None => EmptyString
        | None => EmptyString
        end in
      match post_login portal token (cnpj_limpo cnpj) senha with
      | PostExcecao msg => inl (mkHTTPException 401 msg)
      | PostFeito emissor s =>
          if negb emissor then inl (mkHTTPException 401 "Credenciais inválidas")
          else inr s
      end
  end.

(** ** More definitions used to state properties *)

(** The text has no line feed. *)
Fixpoint sem_quebra (s : string) : bool :=
  match s with
  | String c r => negb (Ascii.eqb c "010") && sem_quebra r
  | EmptyString => true
  end.

(** Every character of the text is a digit. *)
Fixpoint so_digitos (s : string) : bool :=
  match s with
  | String c r => Py.e_digito c && so_digitos r
  | EmptyString => true
  end.

(** The number of occurrences of a character. *)
Fixpoint conta (c : ascii) (s : string) : nat :=
  match s with
  | String c' r => ((if Ascii.eqb c' c then 1 else 0) + conta c r)%nat
  | EmptyString => O
  end.

(** [f] holds of [lo], [lo + 1], ... ([n] integers). *)
Fixpoint todos_desde (f : Z -> bool) (lo : Z) (n : nat) : bool :=
  match n with
  | O => true
  | S n' => f lo && todos_desde f (lo + 1) n'
  end.

(** The text is made of exactly [n] digits and reads back as [v]. *)
Definition le_de_volta (n : nat) (v : Z) (s : string) : bool :=
  (String.length s =? n)%nat && so_digitos s && (Py.int_digitos 0 s =? v).

(** A portal whose login page carries a token and which accepts any
    form, answering with [sessao_tres]. *)
Definition portal_aceita : portal_login :=
  PortalLogin (LoginPagina (Some (Some "tok"))) (fun _ _ _ => PostFeito true sessao_tres).

(** A portal that answers the form without the session cookie. *)
Definition portal_recusa : portal_login :=
  PortalLogin (LoginPagina None) (fun _ _ _ => PostFeito false sessao_tres).

(** A portal with two pages: the first announces a next page, the
    second does not. *)
Definition sessao_duas_paginas : sessao :=
  Sessao (fun url =>
            if String.eqb url base_url
            then Resposta 200 (Pagina (Some [linha_de "05/2025" "GERADA" "200,00"]) true None)
            else Resposta 200 (Pagina (Some [linha_de "03/2025" "GERADA" "100,00"]) false None)).

(** A portal whose every page announces a next page. *)
Definition sessao_sem_fim : sessao :=
  Sessao (fun _ =>
            Resposta 200 (Pagina (Some [linha_de "05/2025" "GERADA" "200,00"]) true None)).

(** ** Temporary files *)

(** A file path: its directory and its name in it. *)
Definition caminho : Type := (string * string)%type.

Definition caminho_eqb (p q : caminho) : bool :=
  String.eqb (fst p) (fst q) && String.eqb (snd p) (snd q).

(** The disk, as far as the cleanup sees it: the files and the
    directories that exist (directories inside directories are left out). *)
Record disco : Type := Disco {
  arquivos : list caminho;
  diretorios : list string
}.

(** The attributes a session may carry ([hasattr]). *)
Record temporarios : Type := Temporarios {
  temp_cert_path : option caminho;
  temp_key_path : option caminho;
  temp_dir : option string
}.

(** [os.remove(p)]: [None] stands for the [OSError] raised when no such
    file exists. *)
Definition os_remove (p : caminho) (d : disco) : option disco :=
  if existsb (caminho_eqb p) (arquivos d)
  then Some (Disco (filter (fun q => negb (caminho_eqb p q)) (arquivos d)) (diretorios d))
  else None.

(** [os.rmdir(dir)]: [None] stands for the [OSError] raised when the
    directory does not exist or is not empty. *)
Definition os_rmdir (dir : string) (d : disco) : option disco :=
  if existsb (String.eqb dir) (diretorios d)
     && negb (existsb (fun q => String.eqb dir (fst q)) (arquivos d))
  then Some (Disco (arquivos d) (filter (fun x => negb (String.eqb dir x)) (diretorios d)))
  else None.

(** [limpar_temp]: the three removals in turn; the first one that raises
    ends the cleanup silently ([except: pass]), what was removed before
    stays removed. *)
Definition limpar_temp (t : temporarios) (d : disco) : disco :=
  match (match temp_cert_path t with Some p => os_remove p d | None => Some d end) with
  | None => d
  | Some d1 =>
      match (match temp_key_path t with Some p => os_remove p d1 | None => Some d1 end) with
      | None => d1
      | Some d2 =>
          match (match temp_dir t with Some x => os_rmdir x d2 | None => Some d2 end) with
          | None => d2
          | Some d3 => d3
          end
      end
  end.

(** The attributes as [autenticar_certificado] sets them for a
    temporary directory. *)
Definition temporarios_de (dir : string) : temporarios :=
  Temporarios (Some (dir, "cert.pem")) (Some (dir, "key.pem")) (Some dir).

(** Going from disk [d] to disk [d']: nothing was created, and nothing
    was removed but the files and the directory that [t] names. *)
Definition so_o_que_e_seu (t : temporarios) (d d' : disco) : Prop :=
  (forall f, In f (arquivos d) ->
             temp_cert_path t <> Some f -> temp_key_path t <> Some f ->
             In f (arquivos d')) /\
  (forall x, In x (diretorios d) -> temp_dir t <> Some x -> In x (diretorios d')) /\
  (forall f, In f (arquivos d') -> In f (arquivos d)) /\
  (forall x, In x (diretorios d') -> In x (diretorios d)).

(** Three authorized invoices of March 2025, and a portal that lists
    them on every page. *)
Definition notas_marco : list (nota float) :=
  [Nota 3 2025 100%float "Autorizada";
   Nota 3 2025 50.5%float "Autorizada";
   Nota 3 2025 7%float "Autorizada"].

Definition sessao_marco : sessao :=
  Sessao (fun _ =>
            Resposta 200
              (Pagina
                 (Some [linha_de "03/2025" "GERADA" "100,00";
                        linha_de "03/2025" "GERADA" "50,50";
                        linha_de "03/2025" "GERADA" "7,00"])
                 false None)).

(** A request by login and password for March 2025. *)
Definition req_login_marco : ConsultaRequest.t :=
  ConsultaRequest.mk 2 2025 (Some 3) None None (Some "12345678000190") (Some "segredo").

(** ** Additions that do not round *)

(** The value of a binary64 number in units of 2^-1074, the spacing of the
    smallest numbers of the format, of which every finite number is a
    whole multiple. Infinities, NaN and -0.0 (which has the value of 0.0
    and is another number) have none. *)
Definition valor_exato (x : float) : option Z :=
  match Prim2SF x with
  | S754_zero false => Some 0
  | S754_finite s m e => Some (cond_Zopp s (Zpos m) * 2 ^ (e + 1074))
  | _ => None
  end.

Definition exato (x : float) : Z :=
  match valor_exato x with Some a => a | None => 0 end.

(** [x + y] does not round: the value of the binary64 sum is the sum of
    the values. *)
Definition soma_exata (x y : float) : bool :=
  match valor_exato x, valor_exato y, valor_exato (x + y) with
  | Some a, Some b, Some c => c =? a + b
  | _, _, _ => false
  end.

(** No addition of [sum(xs)] rounds, [acc] being the sum so far. *)
Fixpoint somas_exatas (xs : list float) (acc : float) : bool :=
  match xs with
  | [] => true
  | x :: r => soma_exata acc x && somas_exatas r (acc + x)
  end.

(** No [meses[chave] += nota['valor']] of the summing loop rounds. *)
Fixpoint totais_exatos (ns : list (nota float)) (meses : dict) : bool :=
  match ns with
  | [] => true
  | n :: r =>
      match dict_get (chave (mes n) (ano n)) meses with
      | Some v => soma_exata v (valor n)
      | None => true
      end
      && totais_exatos r (soma_nota PrimFloat.add meses n)
  end.

(** None of the additions made on the records [ns] rounds: those of
    [sum(n['valor'] for n in notas)], those of the summing loop of
    [totalizar_por_mes], and those of the sum of the monthly totals. *)
Definition sem_arredondar (ns : list (nota float)) (a : Z) (mf : option Z) : bool :=
  somas_exatas (map valor ns) 0
  && totais_exatos ns (meses_iniciais 0%float a mf)
  && somas_exatas (map snd (totalizar_por_mes ns a mf)) 0.

(** Records and totals with every amount replaced by its exact value. *)
Definition exato_nota (n : nota float) : nota Z :=
  Nota (mes n) (ano n) (exato (valor n)) (status n).

Definition exato_dict (d : @dict float) : @dict Z :=
  map (fun p => (fst p, exato (snd p))) d.

(** * Properties *)

(** ** The built-ins on examples *)

Example str_2025 : Py.str 2025 = "2025".
Proof. reflexivity. Qed.

Example fmt_02d_3 : Py.fmt_02d 3 = "03" /\ Py.fmt_02d 12 = "12" /\ Py.fmt_02d 100 = "100".
Proof. repeat split. Qed.

Example float_exemplos :
  Py.float "1234.56" = Some 1234.56%float /\
  Py.float " 1_000.5 " = Some 1000.5%float /\
  Py.float "1e3" = Some 1000%float /\
  Py.float ".5" = Some 0.5%float /\
  Py.float "-0" = Some (-0)%float /\
  Py.float "1e400" = Some infinity /\
  Py.float "-Infinity" = Some neg_infinity /\
  Py.float "" = None /\
  Py.float "." = None /\
  Py.float "1e" = None /\
  Py.float "1_.5" = None /\
  Py.float "1 234.56" = None /\
  Py.float "R$ 10.00" = None /\
  Py.float (String "028" "1") = None /\
  Py.strip (String "028" "1") = "1" /\
  Py.float (String "160" "1.5") = Some 1.5%float /\
  Py.strip (String "133" "1.5") = "1.5".
Proof. repeat split. Qed.

Example parse_valor_100 : parse_valor "100,00" = Some 100%float.
Proof. reflexivity. Qed.

Example re_competencia_meio : re_competencia "x123/20256" = Some ("23", "2025").
Proof. reflexivity. Qed.

(** ** The loop over the rows *)

Lemma processar_linhas_app (pre post : list linha) (a : Z) (mf : option Z) :
  processar_linhas (pre ++ post) a mf =
  if snd (processar_linhas pre a mf)
  then (fst (processar_linhas pre a mf) ++ fst (processar_linhas post a mf),
        snd (processar_linhas post a mf))
  else (fst (processar_linhas pre a mf), false).
Proof.
  induction pre as [|l pre IH]; simpl.
  - now destruct (processar_linhas post a mf).
  - destruct (processar_linha l a mf); simpl; auto.
    rewrite IH.
    destruct (processar_linhas pre a mf) as [ns [|]]; simpl; reflexivity.
Qed.

(** A row that is skipped could as well be absent. *)
Lemma processar_linhas_continue (pre post : list linha) (l : linha) (a : Z) (mf : option Z) :
  processar_linha l a mf = Continue ->
  processar_linhas (pre ++ l :: post) a mf = processar_linhas (pre ++ post) a mf.
Proof.
  intros H. rewrite !processar_linhas_app. simpl. now rewrite H.
Qed.

(** A row that breaks the loop cuts the page there. *)
Lemma processar_linhas_break (pre post : list linha) (l : linha) (a : Z) (mf : option Z) :
  processar_linha l a mf = Break ->
  processar_linhas (pre ++ l :: post) a mf = (fst (processar_linhas pre a mf), false).
Proof.
  intros H. rewrite processar_linhas_app. simpl. rewrite H. simpl.
  rewrite app_nil_r. now destruct (snd (processar_linhas pre a mf)).
Qed.

(** The loop breaks exactly on a stop condition. *)
Lemma processar_linha_break_iff (l : linha) (a : Z) (mf : option Z) :
  processar_linha l a mf = Break <-> condicao_parada l a mf = true.
Proof.
  unfold processar_linha, condicao_parada.
  destruct (competencia l) as [[m y]|]; [|split; discriminate].
  destruct (y =? a); simpl; [|tauto].
  destruct mf as [f|]; simpl.
  - destruct (m <? f); simpl; [tauto|].
    destruct (negb (m =? f)); [split; discriminate|].
    destruct (negb _); [split; discriminate|].
    destruct (td_valor l) as [v|]; [|split; discriminate].
    destruct (parse_valor v); split; discriminate.
  - destruct (negb _); [split; discriminate|].
    destruct (td_valor l) as [v|]; [|split; discriminate].
    destruct (parse_valor v); split; discriminate.
Qed.

(** What a row must be like to give a record. *)
Lemma processar_linha_append (l : linha) (a : Z) (mf : option Z) (n : nota float) :
  processar_linha l a mf = Append n ->
  exists m txt v,
    competencia l = Some (m, a) /\
    match mf with Some f => m = f | None => True end /\
    gerada l = true /\
    td_valor l = Some txt /\ parse_valor txt = Some v /\
    n = Nota m a v "Autorizada".
Proof.
  unfold processar_linha, gerada.
  destruct (competencia l) as [[m y]|]; [|discriminate].
  destruct (Z.eqb_spec y a) as [->|]; simpl; [|discriminate].
  destruct (match mf with Some f => m <? f | None => false end); [discriminate|].
  destruct (match mf with Some f => negb (m =? f) | None => false end) eqn:E; [discriminate|].
  destruct (Py.contem _ _) eqn:G; simpl; [|discriminate].
  destruct (td_valor l) as [txt|]; [|discriminate].
  destruct (parse_valor txt) as [v|] eqn:P; [|discriminate].
  intros [= <-]. exists m, txt, v. repeat split; auto.
  destruct mf as [f|]; auto.
  destruct (Z.eqb_spec m f); [assumption|discriminate].
Qed.

(** Every record of the loop comes with the target year and, under a
    month filter, with the filtered month. *)
Lemma processar_linhas_forall (linhas : list linha) (a : Z) (mf : option Z) :
  Forall (fun n => ano n = a /\ match mf with Some f => mes n = f | None => True end)
         (fst (processar_linhas linhas a mf)).
Proof.
  induction linhas as [|l r IH]; simpl; [constructor|].
  destruct (processar_linha l a mf) eqn:E; simpl; auto.
  destruct (processar_linhas r a mf) as [ns c]; simpl in *.
  constructor; [|assumption].
  apply processar_linha_append in E as (m & txt & v & _ & Hm & _ & _ & _ & ->).
  simpl. split; [reflexivity|]. destruct mf; auto.
Qed.

(** The flag of the loop: no row holds a stop condition. *)
Lemma processar_linhas_continuar (linhas : list linha) (a : Z) (mf : option Z) :
  snd (processar_linhas linhas a mf) =
  negb (existsb (fun l => condicao_parada l a mf) linhas).
Proof.
  induction linhas as [|l r IH]; simpl; [reflexivity|].
  destruct (processar_linha l a mf) eqn:E.
  - destruct (condicao_parada l a mf) eqn:C.
    + apply processar_linha_break_iff in C. congruence.
    + simpl. exact IH.
  - apply processar_linha_break_iff in E. now rewrite E.
  - destruct (condicao_parada l a mf) eqn:C.
    + apply processar_linha_break_iff in C. congruence.
    + simpl. rewrite <- IH. now destruct (processar_linhas r a mf).
Qed.

(** ** C1: the year of the records *)

(** C1. Every record that [processar_pagina] returns has its year equal
    to the target year, whatever the page and the month filter; and a row
    whose competence year differs from the target year ends the scan of
    the page there: the result is what the rows before it gave, with the
    flag [continuar] false. *)
Theorem processar_pagina_ano_alvo (html : pagina) (a : Z) (mf : option Z) :
  Forall (fun n => ano n = a) (fst (processar_pagina html a mf)) /\
  (forall pre l post m y,
      tbody html = Some (pre ++ l :: post) ->
      competencia l = Some (m, y) ->
      y <> a ->
      processar_pagina html a mf = (fst (processar_linhas pre a mf), false)).
Proof.
  split.
  - unfold processar_pagina. destruct (tbody html) as [linhas|]; [|constructor].
    eapply Forall_impl; [|apply processar_linhas_forall].
    simpl. intros n [H _]. exact H.
  - intros pre l post m y Hb Hc Hy. unfold processar_pagina. rewrite Hb.
    apply processar_linhas_break, processar_linha_break_iff.
    unfold condicao_parada. rewrite Hc.
    destruct (Z.eqb_spec y a); [contradiction|reflexivity].
Qed.

Lemma processar_pagina_ano_alvo_witness :
  Forall (fun n => ano n = 2025) (fst (processar_pagina pagina_dois_anos 2025 None)) /\
  processar_pagina pagina_dois_anos 2025 None = ([Nota 5 2025 200%float "Autorizada"], false).
Proof.
  destruct (processar_pagina_ano_alvo pagina_dois_anos 2025 None) as [H1 H2].
  split; [exact H1|].
  refine (H2 [linha_de "05/2025" "GERADA" "200,00"]
             (linha_de "12/2024" "GERADA" "1,00")
             [linha_de "03/2025" "GERADA" "100,00"] 12 2024 eq_refl eq_refl _).
  discriminate.
Defined.

(** ** C9: the continuation flag *)

(** A page without a table body has no row at all, and yet the flag is
    false. *)
Lemma continuar_sem_tbody :
  tbody pagina_sem_tbody = None /\
  snd (processar_pagina pagina_sem_tbody 2025 None) <> true.
Proof. split; [reflexivity|discriminate]. Qed.

(** C9, amended. The flag [continuar] of [processar_pagina] is true
    exactly when the page has a table body and no row of it holds a stop
    condition (a year other than the target year or, under a month
    filter, a month below the filtered one); on a page without a table
    body the flag is false. *)
Theorem processar_pagina_continuar (html : pagina) (a : Z) (mf : option Z) :
  snd (processar_pagina html a mf) =
  match tbody html with
  | None => false
  | Some linhas => negb (existsb (fun l => condicao_parada l a mf) linhas)
  end.
Proof.
  unfold processar_pagina. destruct (tbody html) as [linhas|]; [|reflexivity].
  apply processar_linhas_continuar.
Qed.

(** ** C2: the amounts *)

(** An amount with a single decimal digit is read, and its row kept. *)
Lemma valor_com_um_decimal :
  parse_valor "10,5" = Some 10.5%float /\
  processar_pagina (pagina_de [linha_de "03/2025" "GERADA" "10,5"]) 2025 None
  = ([Nota 3 2025 10.5%float "Autorizada"], true).
Proof. split; reflexivity. Qed.

(** A row whose amount [float] rejects gives no record. *)
Lemma processar_linha_valor_invalido (l : linha) (a : Z) (mf : option Z) (txt : string) :
  td_valor l = Some txt -> parse_valor txt = None ->
  forall n, processar_linha l a mf <> Append n.
Proof.
  intros Hv Hp n E.
  apply processar_linha_append in E as (_ & txt' & v & _ & _ & _ & Hv' & Hp' & _).
  congruence.
Qed.

Lemma processar_linha_sem_parada (l : linha) (a : Z) (mf : option Z) :
  condicao_parada l a mf = false ->
  (forall n, processar_linha l a mf <> Append n) ->
  processar_linha l a mf = Continue.
Proof.
  intros C H. destruct (processar_linha l a mf) eqn:E.
  - reflexivity.
  - apply processar_linha_break_iff in E. congruence.
  - now elim (H n).
Qed.

(** C2, amended. The amount "1.234,56" is read as 1234.56 and "0,00" as
    0.0; "10,5" is accepted and read as 10.5. A row whose amount text is
    rejected by [float] gives no record and, when it holds no stop
    condition, the page is scanned as if the row were absent. *)
Theorem parse_valor_e_linha_invalida :
  parse_valor "1.234,56" = Some 1234.56%float /\
  parse_valor "0,00" = Some 0%float /\
  parse_valor "10,5" = Some 10.5%float /\
  (forall l a mf txt,
      td_valor l = Some txt -> parse_valor txt = None ->
      (forall n, processar_linha l a mf <> Append n) /\
      (condicao_parada l a mf = false ->
       forall pre post,
         processar_linhas (pre ++ l :: post) a mf = processar_linhas (pre ++ post) a mf)).
Proof.
  repeat split; try reflexivity.
  - eapply processar_linha_valor_invalido; eassumption.
  - intros C pre post. apply processar_linhas_continue.
    apply processar_linha_sem_parada; [assumption|].
    eapply processar_linha_valor_invalido; eassumption.
Qed.

Lemma parse_valor_e_linha_invalida_witness :
  parse_valor "abc" = None /\
  (forall n, processar_linha (linha_de "03/2025" "GERADA" "abc") 2025 None <> Append n) /\
  processar_pagina
    (pagina_de [linha_de "03/2025" "GERADA" "abc"; linha_de "03/2025" "GERADA" "0,00"])
    2025 None
  = ([Nota 3 2025 0%float "Autorizada"], true).
Proof.
  destruct parse_valor_e_linha_invalida as (_ & _ & _ & H).
  destruct (H (linha_de "03/2025" "GERADA" "abc") 2025 None "abc" eq_refl eq_refl)
    as [H1 H2].
  split; [reflexivity|]. split; [exact H1|].
  exact (H2 eq_refl [] [linha_de "03/2025" "GERADA" "0,00"]).
Defined.

(** ** The keys of the monthly totals *)

Lemma de_texto_str (n : Z) : de_texto (Py.str n) = Some n.
Proof.
  unfold de_texto, Py.str. rewrite NilEmpty.isi. simpl. now rewrite DecimalZ.of_to.
Qed.

Lemma str_inj (a b : Z) : Py.str a = Py.str b -> a = b.
Proof.
  intros H. apply (f_equal de_texto) in H. rewrite !de_texto_str in H. congruence.
Qed.

Lemma de_texto_zero_a_esquerda (n : Z) :
  0 <= n -> de_texto (String "0" (Py.str n)) = Some n.
Proof.
  intros Hn. unfold de_texto, Py.str.
  destruct (Z.to_int n) as [d|d] eqn:E.
  - simpl. rewrite NilEmpty.usu. simpl. f_equal.
    rewrite <- (DecimalZ.of_to n), E. reflexivity.
  - destruct n; simpl in E; try discriminate. lia.
Qed.

Lemma str_negativo_longo (p : positive) :
  (String.length (Py.str (Z.neg p)) <? 2)%nat = false.
Proof.
  unfold Py.str. simpl.
  destruct (Pos.to_uint p) eqn:E; try reflexivity.
  now elim (DecimalPos.Unsigned.to_uint_nonnil p).
Qed.

Lemma de_texto_fmt_02d (n : Z) : de_texto (Py.fmt_02d n) = Some n.
Proof.
  unfold Py.fmt_02d.
  destruct (String.length (Py.str n) <? 2)%nat eqn:E; [|apply de_texto_str].
  apply de_texto_zero_a_esquerda.
  destruct n; try lia. now rewrite str_negativo_longo in E.
Qed.

Lemma fmt_02d_inj (a b : Z) : Py.fmt_02d a = Py.fmt_02d b -> a = b.
Proof.
  intros H. apply (f_equal de_texto) in H. rewrite !de_texto_fmt_02d in H. congruence.
Qed.

Lemma sem_barra_uint (d : Decimal.uint) : sem_barra (NilEmpty.string_of_uint d) = true.
Proof. induction d; simpl; auto. Qed.

Lemma sem_barra_str (n : Z) : sem_barra (Py.str n) = true.
Proof.
  unfold Py.str. destruct (Z.to_int n); simpl; apply sem_barra_uint.
Qed.

Lemma sem_barra_fmt_02d (n : Z) : sem_barra (Py.fmt_02d n) = true.
Proof.
  unfold Py.fmt_02d. destruct (_ <? _)%nat; simpl; apply sem_barra_str.
Qed.

(** Two texts without a slash that agree once followed by a slash. *)
Lemma corta_na_barra (s1 s2 t1 t2 : string) :
  sem_barra s1 = true -> sem_barra s2 = true ->
  (s1 ++ String "/" t1 = s2 ++ String "/" t2)%string ->
  s1 = s2 /\ t1 = t2.
Proof.
  revert s2. induction s1 as [|c s1 IH]; intros [|c2 s2]; simpl; intros H1 H2 E.
  - injection E as ->. auto.
  - injection E as <- _. now rewrite Ascii.eqb_refl in H2.
  - injection E as -> _. now rewrite Ascii.eqb_refl in H1.
  - injection E as -> E.
    apply andb_prop in H1 as [_ H1]. apply andb_prop in H2 as [_ H2].
    destruct (IH s2 H1 H2 E) as [-> ->]. auto.
Qed.

Lemma chave_inj (m1 a1 m2 a2 : Z) :
  chave m1 a1 = chave m2 a2 -> m1 = m2 /\ a1 = a2.
Proof.
  unfold chave. intros E.
  apply corta_na_barra in E as [Em Ea]; try apply sem_barra_fmt_02d.
  split; [now apply fmt_02d_inj|now apply str_inj].
Qed.

Lemma chave_eqb (m1 a1 m2 a2 : Z) :
  String.eqb (chave m1 a1) (chave m2 a2) = (m2 =? m1) && (a2 =? a1).
Proof.
  destruct (String.eqb_spec (chave m1 a1) (chave m2 a2)) as [E|E].
  - apply chave_inj in E as [-> ->]. now rewrite !Z.eqb_refl.
  - destruct (Z.eqb_spec m2 m1) as [->|]; [|reflexivity].
    destruct (Z.eqb_spec a2 a1) as [->|]; [|reflexivity].
    now elim E.
Qed.

(** ** The aggregator under a month filter *)

Section TotaisDoMes.

Context {V : Type} (zero : V) (add : V -> V -> V).

Lemma fold_soma_nota_um_mes (ns : list (nota V)) (m a : Z) (v : V) :
  fold_left (soma_nota add) ns [(chave m a, v)] =
  [(chave m a, fold_left add (map valor (filter (do_mes m a) ns)) v)].
Proof.
  revert v. induction ns as [|n ns IH]; intros v; simpl; [reflexivity|].
  unfold soma_nota at 2, do_mes at 1. simpl.
  rewrite chave_eqb.
  destruct ((mes n =? m) && (ano n =? a)); simpl; apply IH.
Qed.

(** Under a month filter the totals hold one entry: the filtered month
    with the sum of the records of that month and year. *)
Lemma totalizar_um_mes (ns : list (nota V)) (a m : Z) :
  totalizar_por_mes_em zero add ns a (Some m) =
  [(chave m a, soma zero add (map valor (filter (do_mes m a) ns)))].
Proof. apply fold_soma_nota_um_mes. Qed.

End TotaisDoMes.

(** ** C4: the month filter *)

(** C4. Under a month filter [m], on a page of the target year [a]:
    a row of year [a] whose month is less than [m] ends the scan with
    [continuar] false; a row of year [a] whose month is neither [m] nor
    less than [m] is skipped and the scan goes on as if it were absent;
    every record returned has month [m]; and the monthly totals hold the
    single entry of month [m], which sums the records of month [m] and
    year [a] only. *)
Theorem filtro_de_mes (a m : Z) :
  (forall html pre l post mm,
      tbody html = Some (pre ++ l :: post) ->
      competencia l = Some (mm, a) -> mm < m ->
      processar_pagina html a (Some m) = (fst (processar_linhas pre a (Some m)), false)) /\
  (forall html pre l post mm,
      tbody html = Some (pre ++ l :: post) ->
      competencia l = Some (mm, a) -> mm <> m -> ~ mm < m ->
      processar_pagina html a (Some m) = processar_linhas (pre ++ post) a (Some m)) /\
  (forall html, Forall (fun n => mes n = m) (fst (processar_pagina html a (Some m)))) /\
  (forall ns,
      totalizar_por_mes ns a (Some m) =
      [(chave m a, Py.sum (map valor (filter (do_mes m a) ns)))]).
Proof.
  repeat split.
  - intros html pre l post mm Hb Hc Hlt. unfold processar_pagina. rewrite Hb.
    apply processar_linhas_break, processar_linha_break_iff.
    unfold condicao_parada. rewrite Hc.
    apply orb_true_iff. right. now apply Z.ltb_lt.
  - intros html pre l post mm Hb Hc Hne Hge. unfold processar_pagina. rewrite Hb.
    apply processar_linhas_continue.
    unfold processar_linha. rewrite Hc, Z.eqb_refl. simpl.
    destruct (Z.ltb_spec mm m); [contradiction|].
    destruct (Z.eqb_spec mm m); [contradiction|reflexivity].
  - intros html. unfold processar_pagina.
    destruct (tbody html) as [linhas|]; [|constructor].
    eapply Forall_impl; [|apply processar_linhas_forall].
    simpl. intros n [_ H]. exact H.
  - intros ns. apply (totalizar_um_mes 0%float PrimFloat.add).
Qed.

Lemma filtro_de_mes_witness :
  processar_pagina pagina_marco 2025 (Some 3)
  = ([Nota 3 2025 100%float "Autorizada"], false) /\
  processar_pagina (pagina_de [linha_de "04/2025" "GERADA" "10,00";
                               linha_de "03/2025" "GERADA" "100,00"]) 2025 (Some 3)
  = ([Nota 3 2025 100%float "Autorizada"], true) /\
  Forall (fun n => mes n = 3) (fst (processar_pagina pagina_marco 2025 (Some 3))) /\
  totalizar_por_mes
    [Nota 4 2025 10%float "Autorizada"; Nota 3 2025 100%float "Autorizada";
     Nota 3 2024 1%float "Autorizada"] 2025 (Some 3)
  = [("03/2025", 100%float)].
Proof.
  destruct (filtro_de_mes 2025 3) as (H1 & H2 & H3 & H4).
  split; [|split; [|split]].
  - refine (H1 pagina_marco
              [linha_de "04/2025" "GERADA" "10,00"; linha_de "03/2025" "GERADA" "100,00"]
              (linha_de "02/2025" "GERADA" "5,00")
              [linha_de "03/2025" "GERADA" "7,00"] 2 eq_refl eq_refl _).
    reflexivity.
  - refine (H2 (pagina_de [linha_de "04/2025" "GERADA" "10,00";
                           linha_de "03/2025" "GERADA" "100,00"])
              [] (linha_de "04/2025" "GERADA" "10,00")
              [linha_de "03/2025" "GERADA" "100,00"] 4 eq_refl eq_refl _ _).
    + discriminate.
    + discriminate.
  - exact (H3 pagina_marco).
  - exact (H4 _).
Defined.

(** ** C5: seeding *)

Lemma dict_set_chaves {V : Type} (k : string) (v v' : V) (d : dict) :
  dict_get k d = Some v -> map fst (dict_set k v' d) = map fst d.
Proof.
  induction d as [|[k0 v0] d IH]; simpl; [discriminate|].
  destruct (String.eqb k0 k); simpl; [reflexivity|].
  intros H. now rewrite IH.
Qed.

Lemma soma_nota_chaves {V : Type} (add : V -> V -> V) (d : dict) (n : nota V) :
  map fst (soma_nota add d n) = map fst d.
Proof.
  unfold soma_nota. destruct (dict_get _ d) eqn:E; [|reflexivity].
  eapply dict_set_chaves, E.
Qed.

(** Summing never changes the keys. *)
Lemma totalizar_chaves {V : Type} (zero : V) (add : V -> V -> V)
  (ns : list (nota V)) (a : Z) (mf : option Z) :
  map fst (totalizar_por_mes_em zero add ns a mf) = map fst (meses_iniciais zero a mf).
Proof.
  unfold totalizar_por_mes_em. generalize (meses_iniciais zero a mf).
  induction ns as [|n ns IH]; intros d; simpl; [reflexivity|].
  now rewrite IH, soma_nota_chaves.
Qed.

(** The seed: one zero entry for each month in scope, in order. *)
Lemma meses_iniciais_zeros {V : Type} (zero : V) (a : Z) (mf : option Z) :
  meses_iniciais zero a mf = map (fun m => (chave m a, zero)) (meses_em_escopo mf).
Proof.
  destruct mf as [m|]; [reflexivity|].
  unfold meses_iniciais, chave. generalize (Py.str a). intros s.
  vm_compute. reflexivity.
Qed.

(** C5. For every year [y], the totals of no record at all are, without
    a month filter, the twelve entries "01/y" to "12/y" (twelve distinct
    keys), each 0.0, and with the month filter 6 the single entry "06/y"
    with 0.0. In general the totals start from a zero entry for every
    month in scope, and summing records does not change the keys. *)
Theorem totalizar_semeia_zeros (y : Z) :
  totalizar_por_mes [] y None =
    [("01/" ++ Py.str y, 0%float); ("02/" ++ Py.str y, 0%float);
     ("03/" ++ Py.str y, 0%float); ("04/" ++ Py.str y, 0%float);
     ("05/" ++ Py.str y, 0%float); ("06/" ++ Py.str y, 0%float);
     ("07/" ++ Py.str y, 0%float); ("08/" ++ Py.str y, 0%float);
     ("09/" ++ Py.str y, 0%float); ("10/" ++ Py.str y, 0%float);
     ("11/" ++ Py.str y, 0%float); ("12/" ++ Py.str y, 0%float)]%string /\
  NoDup (map fst (totalizar_por_mes [] y None)) /\
  totalizar_por_mes [] y (Some 6) = [("06/" ++ Py.str y, 0%float)]%string /\
  (forall mf,
      totalizar_por_mes [] y mf
      = map (fun m => (chave m y, 0%float)) (meses_em_escopo mf)) /\
  (forall ns mf,
      map fst (totalizar_por_mes ns y mf) = map fst (totalizar_por_mes [] y mf)).
Proof.
  assert (E : totalizar_por_mes [] y None =
    [("01/" ++ Py.str y, 0%float); ("02/" ++ Py.str y, 0%float);
     ("03/" ++ Py.str y, 0%float); ("04/" ++ Py.str y, 0%float);
     ("05/" ++ Py.str y, 0%float); ("06/" ++ Py.str y, 0%float);
     ("07/" ++ Py.str y, 0%float); ("08/" ++ Py.str y, 0%float);
     ("09/" ++ Py.str y, 0%float); ("10/" ++ Py.str y, 0%float);
     ("11/" ++ Py.str y, 0%float); ("12/" ++ Py.str y, 0%float)]%string).
  { change (totalizar_por_mes [] y None) with (meses_iniciais 0%float y None).
    rewrite meses_iniciais_zeros. unfold chave. generalize (Py.str y). intros s.
    vm_compute. reflexivity. }
  split; [exact E|]. split; [|split; [|split]].
  - rewrite E. simpl map. generalize (Py.str y). intros s.
    repeat (constructor; [simpl; intros H; repeat (destruct H as [H|H]; [discriminate H|]);
                          exact H|]).
    constructor.
  - reflexivity.
  - intros mf. apply (meses_iniciais_zeros 0%float).
  - intros ns mf. unfold totalizar_por_mes. now rewrite !totalizar_chaves.
Qed.

(** ** C6: three invoices, end to end *)

(** C6. For the three authorized invoices 03/2025 of 100.00, 03/2025 of
    50.50 and 05/2025 of 200.00, year 2025 and no month filter: the
    scraper gives the three records, their count is 3, their sum is
    350.50, the totals hold 150.50 for "03/2025", 200.00 for "05/2025"
    and 0.0 for every other month of 2025, and the handler, on a portal
    whose listing holds these three invoices, answers with exactly these
    figures (with fuel for one page or more). *)
Theorem consultar_tres_notas
  (autenticar_certificado : string -> string -> excecao + sessao) (fuel : nat) :
  processar_pagina pagina_tres 2025 None = (notas_tres, true) /\
  Z.of_nat (List.length notas_tres) = 3 /\
  Py.sum (map valor notas_tres) = 350.5%float /\
  totalizar_por_mes notas_tres 2025 None =
    [("01/2025", 0%float); ("02/2025", 0%float); ("03/2025", 150.5%float);
     ("04/2025", 0%float); ("05/2025", 200%float); ("06/2025", 0%float);
     ("07/2025", 0%float); ("08/2025", 0%float); ("09/2025", 0%float);
     ("10/2025", 0%float); ("11/2025", 0%float); ("12/2025", 0%float)] /\
  snd (consultar autenticar_certificado (fun _ _ => inr sessao_tres) (S fuel) req_login_2025)
  = Retorna
      (ConsultaResponse.mk "12.345.678/0001-90" "EMPRESA EXEMPLO LTDA" 2025 None
         3 350.5%float 0%float
         [("01/2025", 0%float); ("02/2025", 0%float); ("03/2025", 150.5%float);
          ("04/2025", 0%float); ("05/2025", 200%float); ("06/2025", 0%float);
          ("07/2025", 0%float); ("08/2025", 0%float); ("09/2025", 0%float);
          ("10/2025", 0%float); ("11/2025", 0%float); ("12/2025", 0%float)]).
Proof. repeat split; vm_compute; reflexivity. Qed.

(** ** C8: required credential fields *)

(** C8. A request with [auth_method] 1 whose [cert_base64] or
    [cert_senha] is missing (absent or empty), and a request with
    [auth_method] 2 whose [cnpj] or [senha] is missing, ends in an
    [HTTPException] of status 400 whose detail names the first missing
    field; the trace is empty: no authentication was attempted and no
    network call was made. *)
Theorem consultar_campo_obrigatorio
  (autenticar_certificado : string -> string -> excecao + sessao)
  (autenticar_login : string -> string -> HTTPException + sessao)
  (fuel : nat) (req : ConsultaRequest.t) :
  (ConsultaRequest.auth_method req = 1 ->
   falsy (ConsultaRequest.cert_base64 req) = true ->
   consultar autenticar_certificado autenticar_login fuel req
   = ([], Levanta (mkHTTPException 400 "Campo obrigatório: cert_base64"))) /\
  (ConsultaRequest.auth_method req = 1 ->
   falsy (ConsultaRequest.cert_base64 req) = false ->
   falsy (ConsultaRequest.cert_senha req) = true ->
   consultar autenticar_certificado autenticar_login fuel req
   = ([], Levanta (mkHTTPException 400 "Campo obrigatório: cert_senha"))) /\
  (ConsultaRequest.auth_method req = 2 ->
   falsy (ConsultaRequest.cnpj req) = true ->
   consultar autenticar_certificado autenticar_login fuel req
   = ([], Levanta (mkHTTPException 400 "Campo obrigatório: cnpj"))) /\
  (ConsultaRequest.auth_method req = 2 ->
   falsy (ConsultaRequest.cnpj req) = false ->
   falsy (ConsultaRequest.senha req) = true ->
   consultar autenticar_certificado autenticar_login fuel req
   = ([], Levanta (mkHTTPException 400 "Campo obrigatório: senha"))).
Proof.
  unfold consultar, autenticar.
  repeat split.
  - intros -> ->. reflexivity.
  - intros -> -> ->. reflexivity.
  - intros -> ->. reflexivity.
  - intros -> -> ->. reflexivity.
Qed.

Lemma consultar_campo_obrigatorio_witness :
  consultar (fun _ _ => inr sessao_tres) (fun _ _ => inr sessao_tres) 1
    (ConsultaRequest.mk 1 2025 None None (Some "senha") None None)
  = ([], Levanta (mkHTTPException 400 "Campo obrigatório: cert_base64")) /\
  consultar (fun _ _ => inr sessao_tres) (fun _ _ => inr sessao_tres) 1
    (ConsultaRequest.mk 1 2025 None (Some "MIIK") None None None)
  = ([], Levanta (mkHTTPException 400 "Campo obrigatório: cert_senha")) /\
  consultar (fun _ _ => inr sessao_tres) (fun _ _ => inr sessao_tres) 1
    (ConsultaRequest.mk 2 2025 None None None None (Some "segredo"))
  = ([], Levanta (mkHTTPException 400 "Campo obrigatório: cnpj")) /\
  consultar (fun _ _ => inr sessao_tres) (fun _ _ => inr sessao_tres) 1
    (ConsultaRequest.mk 2 2025 None None None (Some "12345678000190") None)
  = ([], Levanta (mkHTTPException 400 "Campo obrigatório: senha")).
Proof.
  split; [|split; [|split]].
  - exact (proj1 (consultar_campo_obrigatorio _ _ 1
                    (ConsultaRequest.mk 1 2025 None None (Some "senha") None None))
             eq_refl eq_refl).
  - exact (proj1 (proj2 (consultar_campo_obrigatorio _ _ 1
                    (ConsultaRequest.mk 1 2025 None (Some "MIIK") None None None)))
             eq_refl eq_refl eq_refl).
  - exact (proj1 (proj2 (proj2 (consultar_campo_obrigatorio _ _ 1
                    (ConsultaRequest.mk 2 2025 None None None None (Some "segredo")))))
             eq_refl eq_refl).
  - exact (proj2 (proj2 (proj2 (consultar_campo_obrigatorio _ _ 1
                    (ConsultaRequest.mk 2 2025 None None None (Some "12345678000190") None))))
             eq_refl eq_refl eq_refl).
Defined.

(** ** C3: failures while paginating *)

(** Page 2 answers with status 500: no error is raised and the record
    of page 1 is returned. *)
Lemma consultar_notas_status_500 :
  get sessao_erro_500 (url_pagina 2) = Resposta 500 (Pagina None false None) /\
  consultar_notas 5 (Some sessao_erro_500) 2025 None
  = ([EvGet (url_pagina 1); EvGet (url_pagina 2)],
     Retorna [Nota 5 2025 200%float "Autorizada"]).
Proof. split; reflexivity. Qed.

(** Pages that all let the paginator through are fetched in turn, and
    their records gathered, before the loop looks at the page after them. *)
Lemma consultar_notas_de_avanca (s : sessao) (a : Z) (mf : option Z) (k : nat) :
  forall (p : Z) (acc : list (nota float)) (fuel : nat),
    Forall (fun q => passa s a mf q = true) (paginas_desde p k) ->
    consultar_notas_de (k + fuel) (Some s) a mf acc p =
    (gets (paginas_desde p k)
       ++ fst (consultar_notas_de fuel (Some s) a mf
                 (acc ++ flat_map (notas_da_pagina s a mf) (paginas_desde p k))
                 (p + Z.of_nat k)),
     snd (consultar_notas_de fuel (Some s) a mf
            (acc ++ flat_map (notas_da_pagina s a mf) (paginas_desde p k))
            (p + Z.of_nat k))).
Proof.
  induction k as [|k IH]; intros p acc fuel H.
  - simpl. rewrite app_nil_r, Z.add_0_r.
    now destruct (consultar_notas_de fuel (Some s) a mf acc p).
  - inversion H as [|q qs Hp Hr]; subst.
    change (S k + fuel)%nat with (S (k + fuel)).
    cbn [consultar_notas_de session_get paginas_desde flat_map gets map].
    unfold passa in Hp. unfold notas_da_pagina at 1 3.
    destruct (get s (url_pagina p)) as [msg|st text]; [discriminate|].
    apply andb_prop in Hp as [Hp Hx]. apply andb_prop in Hp as [Hst Hc].
    unfold bind, tell, ret. simpl.
    rewrite Hst. simpl.
    destruct (processar_pagina text a mf) as [ns c]. simpl in Hc. subst c. simpl.
    rewrite Hx. simpl.
    rewrite (IH (p + 1) (acc ++ ns)%list fuel Hr).
    replace (p + 1 + Z.of_nat k) with (p + Z.of_nat (S k)) by lia.
    rewrite <- !app_assoc. reflexivity.
Qed.

(** C3, amended. When the pages 1 to [k] let the paginator through and
    the fuel covers [k + 1] pages: if fetching page [k + 1] raises (a
    transport failure), [consultar_notas] raises an [HTTPException] of
    status 500 whose detail names the page index [k + 1] and carries the
    message, and returns no record; if page [k + 1] answers with a status
    other than 200, [consultar_notas] raises nothing and returns the
    records of the pages 1 to [k]. *)
Theorem consultar_notas_falha (s : sessao) (a : Z) (mf : option Z) (k fuel : nat) :
  Forall (fun q => passa s a mf q = true) (paginas_desde 1 k) ->
  (k < fuel)%nat ->
  (forall msg,
      get s (url_pagina (1 + Z.of_nat k)) = Excecao msg ->
      consultar_notas fuel (Some s) a mf
      = (gets (paginas_desde 1 (S k)),
         Levanta (mkHTTPException 500
                    ("Erro ao consultar página " ++ Py.str (1 + Z.of_nat k) ++ ": " ++ msg)))) /\
  (forall st text,
      get s (url_pagina (1 + Z.of_nat k)) = Resposta st text ->
      st <> 200 ->
      consultar_notas fuel (Some s) a mf
      = (gets (paginas_desde 1 (S k)),
         Retorna (flat_map (notas_da_pagina s a mf) (paginas_desde 1 k)))).
Proof.
  intros Hk Hf.
  assert (Hg : forall q j, paginas_desde q (S j) = paginas_desde q j ++ [q + Z.of_nat j]).
  { intros q j. revert q. induction j as [|j IH]; intros q.
    - simpl. now rewrite Z.add_0_r.
    - change (paginas_desde q (S (S j))) with (q :: paginas_desde (q + 1) (S j)).
      rewrite IH. cbn [paginas_desde app]. do 3 f_equal. lia. }
  destruct fuel as [|f]; [lia|].
  replace (S f) with (k + S (f - k))%nat by lia.
  unfold consultar_notas.
  split.
  - intros msg Hm.
    rewrite (consultar_notas_de_avanca s a mf k 1 [] _ Hk), (Hg 1 k).
    unfold gets. rewrite map_app.
    cbn [consultar_notas_de session_get]. rewrite Hm.
    reflexivity.
  - intros st text Hr Hst.
    rewrite (consultar_notas_de_avanca s a mf k 1 [] _ Hk), (Hg 1 k).
    unfold gets. rewrite map_app.
    cbn [consultar_notas_de session_get]. rewrite Hr.
    unfold bind, tell, ret. cbn [fst snd].
    destruct (Z.eqb_spec st 200); [contradiction|]. reflexivity.
Qed.

Lemma consultar_notas_falha_witness :
  consultar_notas 5 (Some sessao_queda) 2025 None
  = ([EvGet (url_pagina 1); EvGet (url_pagina 2)],
     Levanta (mkHTTPException 500 "Erro ao consultar página 2: Connection aborted.")) /\
  consultar_notas 5 (Some sessao_erro_500) 2025 None
  = ([EvGet (url_pagina 1); EvGet (url_pagina 2)],
     Retorna [Nota 5 2025 200%float "Autorizada"]).
Proof.
  split.
  - refine (proj1 (consultar_notas_falha sessao_queda 2025 None 1 5 _ _)
              "Connection aborted." eq_refl).
    + repeat constructor.
    + lia.
  - refine (proj2 (consultar_notas_falha sessao_erro_500 2025 None 1 5 _ _)
              500 (Pagina None false None) eq_refl _).
    + repeat constructor.
    + lia.
    + discriminate.
Defined.

(** ** C7: rows that are not generated *)

Lemma processar_linha_nao_gerada (l : linha) (a : Z) (mf : option Z) :
  gerada l = false -> forall n, processar_linha l a mf <> Append n.
Proof.
  intros G n E.
  apply processar_linha_append in E as (_ & _ & _ & _ & _ & G' & _).
  congruence.
Qed.

Lemma processar_linha_equiv (l l' : linha) (a : Z) (mf : option Z) :
  linhas_equiv l l' -> processar_linha l a mf = processar_linha l' a mf.
Proof.
  intros [->|(Hc & G & G')]; [reflexivity|].
  unfold processar_linha, competencia. rewrite <- Hc.
  unfold gerada in G, G'. rewrite G, G'. reflexivity.
Qed.

Lemma processar_linhas_equiv (ls ls' : list linha) (a : Z) (mf : option Z) :
  Forall2 linhas_equiv ls ls' -> processar_linhas ls a mf = processar_linhas ls' a mf.
Proof.
  induction 1 as [|l l' ls ls' H _ IH]; simpl; [reflexivity|].
  now rewrite (processar_linha_equiv l l' a mf H), IH.
Qed.

Lemma processar_pagina_equiv (p p' : pagina) (a : Z) (mf : option Z) :
  paginas_equiv p p' -> processar_pagina p a mf = processar_pagina p' a mf.
Proof.
  intros (_ & _ & H). unfold processar_pagina.
  destruct (tbody p), (tbody p'); try contradiction; [|reflexivity].
  now apply processar_linhas_equiv.
Qed.

Lemma consultar_notas_de_equiv (s s' : sessao) (a : Z) (mf : option Z) :
  sessoes_equiv s s' ->
  forall fuel acc p,
    consultar_notas_de fuel (Some s) a mf acc p
    = consultar_notas_de fuel (Some s') a mf acc p.
Proof.
  intros H fuel. induction fuel as [|fuel IH]; intros acc p; [reflexivity|].
  cbn [consultar_notas_de session_get].
  specialize (H (url_pagina p)). unfold respostas_equiv in H.
  destruct (get s (url_pagina p)) as [m|st t], (get s' (url_pagina p)) as [m'|st' t'];
    try contradiction.
  - now subst.
  - destruct H as [<- Hp]. unfold bind, tell, ret. cbn [fst snd app].
    rewrite (processar_pagina_equiv t t' a mf Hp).
    destruct Hp as (<- & _ & _).
    destruct (negb (st =? 200)); [reflexivity|].
    destruct (processar_pagina t' a mf) as [ns c].
    destruct (negb c); [reflexivity|].
    destruct (negb (proxima t)); [reflexivity|].
    now rewrite IH.
Qed.

Lemma extrair_contribuinte_equiv (s s' : sessao) :
  sessoes_equiv s s' ->
  extrair_contribuinte (Some s) = extrair_contribuinte (Some s').
Proof.
  intros H. unfold extrair_contribuinte, session_get.
  specialize (H base_url). unfold respostas_equiv in H.
  destruct (get s base_url) as [m|st t], (get s' base_url) as [m'|st' t'];
    try contradiction; [reflexivity|].
  destruct H as (_ & _ & Hp & _). unfold bind, tell, ret. cbn [fst snd app].
  now rewrite Hp.
Qed.

Lemma responder_equiv (s s' : sessao) (fuel : nat) (req : ConsultaRequest.t) :
  sessoes_equiv s s' -> responder fuel req (Some s) = responder fuel req (Some s').
Proof.
  intros H. unfold responder, consultar_notas.
  now rewrite (extrair_contribuinte_equiv s s' H),
              (consultar_notas_de_equiv s s' _ _ H).
Qed.

Lemma consultar_total_cancelado
  (autenticar_certificado : string -> string -> excecao + sessao)
  (autenticar_login : string -> string -> HTTPException + sessao)
  (fuel : nat) (req : ConsultaRequest.t) (t : list evento) (resp : ConsultaResponse.t) :
  consultar autenticar_certificado autenticar_login fuel req = (t, Retorna resp) ->
  ConsultaResponse.total_cancelado resp = 0%float.
Proof.
  unfold consultar.
  destruct (autenticar _ _ req) as [t0 [session|e|]]; try discriminate.
  unfold responder.
  destruct (extrair_contribuinte session) as [t1 [[c r]|e|]]; try discriminate.
  unfold bind at 1.
  destruct (consultar_notas fuel session _ _) as [t2 [ns|e|]]; simpl; try discriminate.
  intros [= _ <-]. reflexivity.
Qed.

(** C7. A row whose status marker does not say generated gives no
    record: the page is scanned as if the row were absent, unless the
    row holds a stop condition, in which case the scan ends there with
    nothing added. Whatever such a row carries besides its competence
    date (its amount, its marker) changes nothing in what the handler
    does after authentication: same calls, same count, same sum, same
    monthly totals. And every response has [total_cancelado] 0.0. *)
Theorem linha_nao_gerada_nao_conta :
  (forall l a mf,
      gerada l = false ->
      (forall n, processar_linha l a mf <> Append n) /\
      (forall pre post,
          processar_linhas (pre ++ l :: post) a mf =
          if condicao_parada l a mf
          then (fst (processar_linhas pre a mf), false)
          else processar_linhas (pre ++ post) a mf)) /\
  (forall s s' fuel req,
      sessoes_equiv s s' ->
      responder fuel req (Some s) = responder fuel req (Some s')) /\
  (forall autenticar_certificado autenticar_login fuel req t resp,
      consultar autenticar_certificado autenticar_login fuel req = (t, Retorna resp) ->
      ConsultaResponse.total_cancelado resp = 0%float).
Proof.
  split; [|split].
  - intros l a mf G. split; [now apply processar_linha_nao_gerada|].
    intros pre post. destruct (condicao_parada l a mf) eqn:C.
    + now apply processar_linhas_break, processar_linha_break_iff.
    + apply processar_linhas_continue, processar_linha_sem_parada; [assumption|].
      now apply processar_linha_nao_gerada.
  - intros s s' fuel req H. now apply responder_equiv.
  - intros ac al fuel req t resp H. eapply consultar_total_cancelado, H.
Qed.

Lemma sessoes_equiv_cancelada (v v' : string) :
  sessoes_equiv (sessao_cancelada v) (sessao_cancelada v').
Proof.
  intros url. simpl. split; [reflexivity|].
  split; [reflexivity|]. split; [reflexivity|]. simpl.
  constructor.
  - right. repeat split.
  - constructor; [now left|constructor].
Defined.

Lemma linha_nao_gerada_nao_conta_witness :
  (forall n, processar_linha (linha_de "03/2025" "CANCELADA" "999,99") 2025 None
             <> Append n) /\
  processar_linhas [linha_de "03/2025" "CANCELADA" "999,99";
                    linha_de "03/2025" "GERADA" "100,00"] 2025 None
  = ([Nota 3 2025 100%float "Autorizada"], true) /\
  responder 1 req_login_2025 (Some (sessao_cancelada "999,99"))
  = responder 1 req_login_2025 (Some (sessao_cancelada "0,00")) /\
  ConsultaResponse.total_cancelado
    (ConsultaResponse.mk "N/A" "N/A" 2025 None 1 100%float 0%float
       (totalizar_por_mes [Nota 3 2025 100%float "Autorizada"] 2025 None))
  = 0%float.
Proof.
  destruct linha_nao_gerada_nao_conta as (H1 & H2 & H3).
  destruct (H1 (linha_de "03/2025" "CANCELADA" "999,99") 2025 None eq_refl) as [Ha Hb].
  split; [exact Ha|]. split; [|split].
  - exact (Hb [] [linha_de "03/2025" "GERADA" "100,00"]).
  - exact (H2 _ _ 1%nat req_login_2025 (sessoes_equiv_cancelada "999,99" "0,00")).
  - refine (H3 (fun _ _ => inr (sessao_cancelada "999,99"))
               (fun _ _ => inr (sessao_cancelada "999,99")) 1%nat req_login_2025
               _ _ _).
    vm_compute. reflexivity.
Defined.

(** The cancelled invoice of 999.99 leaves no mark on the response. *)
Example consultar_com_cancelada
  (autenticar_certificado : string -> string -> excecao + sessao) (fuel : nat) :
  snd (consultar autenticar_certificado (fun _ _ => inr (sessao_cancelada "999,99"))
         (S fuel) req_login_2025)
  = Retorna
      (ConsultaResponse.mk "N/A" "N/A" 2025 None 1 100%float 0%float
         [("01/2025", 0%float); ("02/2025", 0%float); ("03/2025", 100%float);
          ("04/2025", 0%float); ("05/2025", 0%float); ("06/2025", 0%float);
          ("07/2025", 0%float); ("08/2025", 0%float); ("09/2025", 0%float);
          ("10/2025", 0%float); ("11/2025", 0%float); ("12/2025", 0%float)]).
Proof. vm_compute. reflexivity. Qed.

(** ** C10: the totals and the sum of the records *)

(** Two ways for the totals to miss the sum of the records: a month
    outside the calendar, and binary64 rounding. *)
Lemma totais_inconsistentes :
  (Forall (no_escopo 2025 None) notas_mes_13 /\
   processar_pagina (pagina_de [linha_de "13/2025" "GERADA" "100,00"]) 2025 None
   = (notas_mes_13, true) /\
   Py.sum (map snd (totalizar_por_mes notas_mes_13 2025 None)) = 0%float /\
   Py.sum (map valor notas_mes_13) = 100%float /\
   Py.sum (map snd (totalizar_por_mes notas_mes_13 2025 None))
   <> Py.sum (map valor notas_mes_13)) /\
  (Forall (fun n => no_escopo 2025 None n /\ no_calendario None n) notas_arredondamento /\
   Py.sum (map valor notas_arredondamento) = 10000000000000000%float /\
   Py.sum (map snd (totalizar_por_mes notas_arredondamento 2025 None))
   = 10000000000000002%float /\
   Py.sum (map snd (totalizar_por_mes notas_arredondamento 2025 None))
   <> Py.sum (map valor notas_arredondamento)).
Proof.
  split.
  - split; [repeat constructor|].
    repeat split; try reflexivity.
    intros E. apply (f_equal Prim2SF) in E. vm_compute in E. discriminate E.
  - split; [repeat constructor; simpl; lia|].
    repeat split; try reflexivity.
    intros E. apply (f_equal Prim2SF) in E. vm_compute in E. discriminate E.
Qed.

Lemma dict_get_in {V : Type} (k : string) (d : @dict V) :
  In k (map fst d) -> exists v, dict_get k d = Some v.
Proof.
  induction d as [|[k0 v0] d IH]; simpl; [contradiction|].
  destruct (String.eqb_spec k0 k) as [->|N]; [eauto|].
  intros [E|H]; [contradiction|auto].
Qed.

Lemma meses_do_ano_in (m : Z) : 1 <= m <= 12 -> In m meses_do_ano.
Proof.
  intros H.
  assert (C : m = 1 \/ m = 2 \/ m = 3 \/ m = 4 \/ m = 5 \/ m = 6 \/
              m = 7 \/ m = 8 \/ m = 9 \/ m = 10 \/ m = 11 \/ m = 12) by lia.
  unfold meses_do_ano. simpl. intuition lia.
Qed.

(** A record in scope finds its key among the seeded ones. *)
Lemma chave_semeada {V : Type} (zero : V) (a : Z) (mf : option Z) (n : nota V) :
  no_escopo a mf n -> no_calendario mf n ->
  In (chave (mes n) (ano n)) (map fst (meses_iniciais zero a mf)).
Proof.
  intros [Ha Hm] Hc. rewrite meses_iniciais_zeros, map_map. simpl.
  rewrite Ha. apply (in_map (fun m => chave m a)).
  destruct mf as [m|]; simpl in *.
  - now left.
  - now apply meses_do_ano_in.
Qed.

(** Records in scope find their keys among the seeded ones, whatever
    the type of the amounts. *)
Lemma chaves_semeadas {V W : Type} (zero : W) (a : Z) (mf : option Z) (ns : list (nota V)) :
  Forall (fun n => no_escopo a mf n /\ no_calendario mf n) ns ->
  Forall (fun n => In (chave (mes n) (ano n)) (map fst (meses_iniciais zero a mf))) ns.
Proof.
  intros H. eapply Forall_impl; [|exact H]. cbn beta. intros n [E C].
  apply (chave_semeada zero a mf (Nota (mes n) (ano n) zero (status n))); assumption.
Qed.

Section Consistencia.

(** Amounts that add up without rounding: addition is associative and
    commutative, and zero is neutral. *)
Context {V : Type} (zero : V) (add : V -> V -> V).
Hypothesis add_assoc : forall x y z, add x (add y z) = add (add x y) z.
Hypothesis add_comm : forall x y, add x y = add y x.
Hypothesis add_zero : forall x, add zero x = x.

Lemma fold_add (xs : list V) (z : V) :
  fold_left add xs z = add z (fold_left add xs zero).
Proof.
  revert z. induction xs as [|x xs IH]; intros z; simpl.
  - now rewrite add_comm, add_zero.
  - rewrite (IH (add z x)), (IH (add zero x)), add_zero. now rewrite add_assoc.
Qed.

Lemma soma_cons (x : V) (xs : list V) :
  soma zero add (x :: xs) = add x (soma zero add xs).
Proof. unfold soma. simpl. now rewrite fold_add, add_zero. Qed.

Lemma soma_dict_set (k : string) (v x : V) (d : dict) :
  dict_get k d = Some v ->
  soma zero add (map snd (dict_set k (add v x) d))
  = add (soma zero add (map snd d)) x.
Proof.
  induction d as [|[k0 v0] d IH]; cbn [dict_get dict_set]; [discriminate|].
  destruct (String.eqb k0 k); cbn [map snd].
  - intros [= ->]. rewrite !soma_cons.
    now rewrite <- !add_assoc, (add_comm x).
  - intros H. rewrite !soma_cons, (IH H). now rewrite add_assoc.
Qed.

Lemma soma_zeros (ms : list Z) (a : Z) :
  soma zero add (map snd (map (fun m => (chave m a, zero)) ms)) = zero.
Proof.
  induction ms as [|m ms IH]; cbn [map snd]; [reflexivity|].
  now rewrite soma_cons, add_zero.
Qed.

Lemma soma_fold_soma_nota (ns : list (nota V)) :
  forall d : dict,
    Forall (fun n => In (chave (mes n) (ano n)) (map fst d)) ns ->
    soma zero add (map snd (fold_left (soma_nota add) ns d))
    = add (soma zero add (map snd d)) (soma zero add (map valor ns)).
Proof.
  induction ns as [|n ns IH]; intros d H; cbn [fold_left map].
  - unfold soma at 3. cbn [fold_left]. now rewrite add_comm, add_zero.
  - inversion H as [|n' ns' Hn Hr]; subst.
    rewrite IH.
    + rewrite soma_cons, add_assoc. f_equal.
      unfold soma_nota. destruct (dict_get_in _ _ Hn) as [v Hv]. rewrite Hv.
      now apply soma_dict_set.
    + rewrite soma_nota_chaves. exact Hr.
Qed.

(** Where addition is exact and every record finds its key, the monthly
    totals sum to the sum of the amounts. *)
Lemma soma_dos_totais (ns : list (nota V)) (a : Z) (mf : option Z) :
  Forall (fun n => In (chave (mes n) (ano n)) (map fst (meses_iniciais zero a mf))) ns ->
  soma zero add (map snd (totalizar_por_mes_em zero add ns a mf))
  = soma zero add (map valor ns).
Proof.
  intros K. unfold totalizar_por_mes_em. rewrite (soma_fold_soma_nota ns _ K).
  now rewrite meses_iniciais_zeros, soma_zeros, add_zero.
Qed.

End Consistencia.

(** *** Binary64 amounts *)

Lemma digits2_pos_spec (m : positive) :
  2 ^ (Zpos (digits2_pos m) - 1) <= Zpos m < 2 ^ Zpos (digits2_pos m).
Proof.
  induction m as [m IH|m IH|]; cbn [digits2_pos].
  - rewrite Pos2Z.inj_succ.
    replace (Z.succ (Zpos (digits2_pos m)) - 1) with (Z.succ (Zpos (digits2_pos m) - 1))
      by lia.
    rewrite !Z.pow_succ_r by lia. lia.
  - rewrite Pos2Z.inj_succ.
    replace (Z.succ (Zpos (digits2_pos m)) - 1) with (Z.succ (Zpos (digits2_pos m) - 1))
      by lia.
    rewrite !Z.pow_succ_r by lia. lia.
  - simpl. lia.
Qed.

(** The mantissa and exponent of a binary64 number: the exponent is at
    least -1074, the mantissa has at most 53 bits, and exactly 53 above
    the least exponent. *)
Lemma bounded_spec (m : positive) (e : Z) :
  bounded prec emax m e = true ->
  0 <= e + 1074 /\
  Zpos m < 2 ^ 53 /\
  (0 < e + 1074 -> 2 ^ 52 <= Zpos m).
Proof.
  unfold bounded, canonical_mantissa, fexp, emin, prec, emax.
  intros H. apply andb_prop in H as [H _]. apply Z.eqb_eq in H.
  pose proof (digits2_pos_spec m) as [L U].
  assert (C : (e = -1074 /\ Zpos (digits2_pos m) <= 53)
              \/ (Zpos (digits2_pos m) = 53 /\ -1074 <= e)) by lia.
  destruct C as [[-> D]|[D E]].
  - split; [lia|]. split; [|lia].
    eapply Z.lt_le_trans; [exact U|]. apply Z.pow_le_mono_r; lia.
  - rewrite D in L, U. split; [lia|]. split; [exact U|]. intros _. exact L.
Qed.

Lemma mantissa_unica (m1 m2 : positive) (k1 k2 : Z) :
  0 <= k1 -> 0 <= k2 -> k1 <= k2 ->
  Zpos m1 < 2 ^ 53 -> (0 < k2 -> 2 ^ 52 <= Zpos m2) ->
  Zpos m1 * 2 ^ k1 = Zpos m2 * 2 ^ k2 ->
  k1 = k2 /\ m1 = m2.
Proof.
  intros H1 H2 L U1 N2 E.
  replace k2 with (k1 + (k2 - k1)) in E by lia.
  rewrite Z.pow_add_r in E by lia.
  assert (P : 0 < 2 ^ k1) by (apply Z.pow_pos_nonneg; lia).
  assert (E' : Zpos m1 = Zpos m2 * 2 ^ (k2 - k1)).
  { apply (Z.mul_cancel_r _ _ (2 ^ k1)); [lia|]. rewrite E. ring. }
  destruct (Z.eq_dec k1 k2) as [->|N].
  - rewrite Z.sub_diag in E'. simpl in E'. split; [reflexivity|]. lia.
  - exfalso.
    assert (Q : 2 ^ 1 <= 2 ^ (k2 - k1)) by (apply Z.pow_le_mono_r; lia).
    change (2 ^ 1) with 2 in Q.
    assert (N2' : 2 ^ 52 <= Zpos m2) by (apply N2; lia).
    change (2 ^ 53) with (2 * 2 ^ 52) in U1.
    nia.
Qed.

(** Two binary64 numbers of the same exact value are the same number. *)
Lemma valor_exato_inj (x y : float) (a : Z) :
  valor_exato x = Some a -> valor_exato y = Some a -> x = y.
Proof.
  unfold valor_exato. intros Hx Hy. apply Prim2SF_inj.
  pose proof (Prim2SF_valid x) as Vx. pose proof (Prim2SF_valid y) as Vy.
  destruct (Prim2SF x) as [[|]|sx| |sx mx ex]; try discriminate;
    destruct (Prim2SF y) as [[|]|sy| |sy my ey]; try discriminate.
  - reflexivity.
  - exfalso. injection Hx as <-. injection Hy as Hy.
    cbn [valid_binary] in Vy. apply bounded_spec in Vy as (K & _ & _).
    assert (0 < 2 ^ (ey + 1074)) by (apply Z.pow_pos_nonneg; lia).
    destruct sy; cbn [cond_Zopp] in Hy; nia.
  - exfalso. injection Hy as <-. injection Hx as Hx.
    cbn [valid_binary] in Vx. apply bounded_spec in Vx as (K & _ & _).
    assert (0 < 2 ^ (ex + 1074)) by (apply Z.pow_pos_nonneg; lia).
    destruct sx; cbn [cond_Zopp] in Hx; nia.
  - injection Hx as Hx. injection Hy as Hy. rewrite <- Hx in Hy. clear Hx.
    cbn [valid_binary] in Vx, Vy.
    apply bounded_spec in Vx as (Kx & Ux & Nx).
    apply bounded_spec in Vy as (Ky & Uy & Ny).
    assert (Pex : 0 < 2 ^ (ex + 1074)) by (apply Z.pow_pos_nonneg; lia).
    assert (Pey : 0 < 2 ^ (ey + 1074)) by (apply Z.pow_pos_nonneg; lia).
    assert (S : sx = sy).
    { destruct sx, sy; cbn [cond_Zopp] in Hy; try reflexivity; exfalso; nia. }
    subst sy.
    assert (E : Zpos mx * 2 ^ (ex + 1074) = Zpos my * 2 ^ (ey + 1074)).
    { destruct sx; cbn [cond_Zopp] in Hy; lia. }
    destruct (Z.le_ge_cases (ex + 1074) (ey + 1074)) as [L|L].
    + destruct (mantissa_unica mx my _ _ Kx Ky L Ux Ny E) as [K ->].
      f_equal. lia.
    + symmetry in E.
      destruct (mantissa_unica my mx _ _ Ky Kx L Uy Nx E) as [K ->].
      f_equal. lia.
Qed.

Lemma soma_exata_spec (x y : float) :
  soma_exata x y = true ->
  exists a b, valor_exato x = Some a /\ valor_exato y = Some b /\
              valor_exato (x + y) = Some (a + b).
Proof.
  unfold soma_exata.
  destruct (valor_exato x) as [a|]; [|discriminate].
  destruct (valor_exato y) as [b|]; [|discriminate].
  destruct (valor_exato (x + y)) as [c|]; [|discriminate].
  intros H. apply Z.eqb_eq in H. subst c. eauto.
Qed.

Lemma exato_some (x : float) (a : Z) : valor_exato x = Some a -> exato x = a.
Proof. unfold exato. now intros ->. Qed.

(** A sum none of whose additions rounds has the sum of the exact values. *)
Lemma somas_exatas_valor (xs : list float) :
  forall (acc : float) (a : Z),
    valor_exato acc = Some a ->
    somas_exatas xs acc = true ->
    valor_exato (fold_left PrimFloat.add xs acc)
    = Some (fold_left Z.add (map exato xs) a).
Proof.
  induction xs as [|x xs IH]; intros acc a Ha H; cbn [fold_left map somas_exatas] in *.
  - exact Ha.
  - apply andb_prop in H as [H1 H2].
    apply soma_exata_spec in H1 as (a' & b & Ea & Eb & Es).
    rewrite Ha in Ea. injection Ea as <-.
    rewrite (exato_some _ _ Eb). now apply IH.
Qed.

Lemma dict_get_exato (k : string) (d : @dict float) :
  dict_get k (exato_dict d) = option_map exato (dict_get k d).
Proof.
  induction d as [|[k0 v0] d IH]; cbn [exato_dict map dict_get fst snd]; [reflexivity|].
  destruct (String.eqb k0 k); [reflexivity|exact IH].
Qed.

Lemma dict_set_exato (k : string) (v : float) (d : @dict float) :
  exato_dict (dict_set k v d) = dict_set k (exato v) (exato_dict d).
Proof.
  induction d as [|[k0 v0] d IH]; cbn [exato_dict map dict_set fst snd]; [reflexivity|].
  destruct (String.eqb k0 k); cbn [map fst snd]; [reflexivity|].
  f_equal. exact IH.
Qed.

(** When no [+=] of the summing loop rounds, the exact values of the
    monthly totals are the totals of the exact values. *)
Lemma totais_exatos_valor (ns : list (nota float)) :
  forall d : @dict float,
    totais_exatos ns d = true ->
    exato_dict (fold_left (soma_nota PrimFloat.add) ns d)
    = fold_left (soma_nota Z.add) (map exato_nota ns) (exato_dict d).
Proof.
  induction ns as [|n ns IH]; intros d H; cbn [fold_left map totais_exatos] in *;
    [reflexivity|].
  apply andb_prop in H as [H1 H2]. rewrite (IH _ H2). f_equal.
  unfold soma_nota. cbn [exato_nota mes ano valor].
  rewrite dict_get_exato.
  destruct (dict_get (chave (mes n) (ano n)) d) as [v|]; cbn [option_map]; [|reflexivity].
  apply soma_exata_spec in H1 as (a & b & Ea & Eb & Es).
  rewrite dict_set_exato.
  now rewrite (exato_some _ _ Ea), (exato_some _ _ Eb), (exato_some _ _ Es).
Qed.

Lemma exato_meses_iniciais (a : Z) (mf : option Z) :
  exato_dict (meses_iniciais 0%float a mf) = meses_iniciais 0 a mf.
Proof.
  rewrite !meses_iniciais_zeros. unfold exato_dict. rewrite map_map. reflexivity.
Qed.

(** C10, amended. For binary64 records of the requested year whose month
    is the filtered month or, without a filter, one of the months 1 to
    12: every record finds its key among the seeded entries, so the
    membership test of [totalizar_por_mes] drops none; and, when none of
    the additions made rounds, the values of the monthly totals sum to
    the sum of the amounts of the records ([total_autorizado]). *)
Theorem totais_consistentes (ns : list (nota float)) (a : Z) (mf : option Z) :
  Forall (fun n => no_escopo a mf n /\ no_calendario mf n) ns ->
  Forall (fun n => In (chave (mes n) (ano n)) (map fst (meses_iniciais 0%float a mf))) ns /\
  (sem_arredondar ns a mf = true ->
   Py.sum (map snd (totalizar_por_mes ns a mf)) = Py.sum (map valor ns)).
Proof.
  intros H. split.
  - now apply chaves_semeadas.
  - intros S. unfold sem_arredondar in S.
    apply andb_prop in S as [S S3]. apply andb_prop in S as [S1 S2].
    apply (valor_exato_inj _ _ (fold_left Z.add (map exato (map valor ns)) 0)).
    + unfold Py.sum. rewrite (somas_exatas_valor _ 0%float 0 eq_refl S3). f_equal.
      replace (map exato (map snd (totalizar_por_mes ns a mf)))
        with (map snd (totalizar_por_mes_em 0 Z.add (map exato_nota ns) a mf)).
      * replace (map exato (map valor ns)) with (map valor (map exato_nota ns))
          by (rewrite !map_map; reflexivity).
        apply (soma_dos_totais 0 Z.add Z.add_assoc Z.add_comm Z.add_0_l).
        apply chaves_semeadas, Forall_map.
        eapply Forall_impl; [|exact H]. now intros n [[? ?] ?].
      * unfold totalizar_por_mes, totalizar_por_mes_em.
        rewrite <- exato_meses_iniciais, <- (totais_exatos_valor _ _ S2).
        unfold exato_dict. rewrite !map_map. reflexivity.
    + unfold Py.sum. apply (somas_exatas_valor _ 0%float 0 eq_refl S1).
Qed.

Lemma totais_consistentes_witness :
  Forall (fun n => In (chave (mes n) (ano n)) (map fst (meses_iniciais 0%float 2025 None)))
         notas_tres /\
  Py.sum (map snd (totalizar_por_mes notas_tres 2025 None)) = Py.sum (map valor notas_tres).
Proof.
  destruct (totais_consistentes notas_tres 2025 None) as (K & E).
  - repeat constructor; simpl; lia.
  - split; [exact K|]. apply E. vm_compute. reflexivity.
Defined.

(** The additions on [notas_tres] are exact; one on
    [notas_arredondamento] rounds, as 0.1 + 0.2 does. *)
Example arredondamento_detectado :
  sem_arredondar notas_tres 2025 None = true /\
  sem_arredondar notas_arredondamento 2025 None = false /\
  soma_exata 0.5 0.25 = true /\
  soma_exata 0.1 0.2 = false.
Proof. vm_compute. repeat split. Qed.

(** * Further properties of the code *)

(** ** The scraper: where records come from *)

Lemma processar_linhas_in (linhas : list linha) (a : Z) (mf : option Z) (n : nota float) :
  In n (fst (processar_linhas linhas a mf)) ->
  exists l, In l linhas /\ processar_linha l a mf = Append n.
Proof.
  induction linhas as [|l r IH]; simpl; [contradiction|].
  destruct (processar_linha l a mf) eqn:E; simpl.
  - intros H. destruct (IH H) as (l' & Hl & Hp). eauto.
  - contradiction.
  - destruct (processar_linhas r a mf) as [ns c]. simpl in *.
    intros [<-|H]; [eauto|].
    destruct (IH H) as (l' & Hl & Hp). eauto.
Qed.

Lemma processar_pagina_in (html : pagina) (a : Z) (mf : option Z) (n : nota float) :
  In n (fst (processar_pagina html a mf)) ->
  exists linhas l,
    tbody html = Some linhas /\ In l linhas /\ processar_linha l a mf = Append n.
Proof.
  unfold processar_pagina. destruct (tbody html) as [linhas|]; [|contradiction].
  intros H. apply processar_linhas_in in H as (l & Hl & Hp). eauto.
Qed.

(** X1. Every record that [processar_pagina] returns comes from a row of
    the table body whose marker says generated, whose competence cell
    holds the month and year of the record, and whose amount cell parses
    to the amount of the record; its status is "Autorizada". *)
Theorem processar_pagina_nota_de_linha
  (html : pagina) (a : Z) (mf : option Z) (n : nota float) :
  In n (fst (processar_pagina html a mf)) ->
  exists linhas l txt,
    tbody html = Some linhas /\ In l linhas /\
    gerada l = true /\
    competencia l = Some (mes n, ano n) /\
    td_valor l = Some txt /\ parse_valor txt = Some (valor n) /\
    status n = "Autorizada".
Proof.
  intros H. apply processar_pagina_in in H as (linhas & l & Hb & Hl & Hp).
  apply processar_linha_append in Hp as (m & txt & v & Hc & _ & G & Hv & Hp & ->).
  exists linhas, l, txt. simpl. auto 10.
Qed.

Lemma processar_pagina_nota_de_linha_witness :
  exists linhas l txt,
    tbody pagina_marco = Some linhas /\ In l linhas /\
    gerada l = true /\
    competencia l = Some (3, 2025) /\
    td_valor l = Some txt /\ parse_valor txt = Some 100%float /\
    "Autorizada" = "Autorizada".
Proof.
  apply (processar_pagina_nota_de_linha pagina_marco 2025 (Some 3)
           (Nota 3 2025 100%float "Autorizada")).
  left. reflexivity.
Defined.

(** ** The scraper: the range of months and years *)

Lemma digito_intervalo (c : ascii) (d : Z) : Py.digito c = Some d -> 0 <= d <= 9.
Proof.
  unfold Py.digito.
  destruct ((48 <=? Z.of_nat (nat_of_ascii c)) && (Z.of_nat (nat_of_ascii c) <=? 57)) eqn:E;
    [|discriminate].
  intros [= <-]. apply andb_prop in E as [E1 E2].
  apply Z.leb_le in E1, E2. lia.
Qed.

Lemma int_digitos_2 (c1 c2 : ascii) :
  Py.e_digito c1 = true -> Py.e_digito c2 = true ->
  0 <= Py.int_digitos 0 (String c1 (String c2 "")) <= 99.
Proof.
  unfold Py.e_digito. cbn [Py.int_digitos].
  destruct (Py.digito c1) as [d1|] eqn:E1; [|discriminate].
  destruct (Py.digito c2) as [d2|] eqn:E2; [|discriminate].
  apply digito_intervalo in E1, E2. intros _ _. lia.
Qed.

Lemma int_digitos_4 (c1 c2 c3 c4 : ascii) :
  Py.e_digito c1 = true -> Py.e_digito c2 = true ->
  Py.e_digito c3 = true -> Py.e_digito c4 = true ->
  0 <= Py.int_digitos 0 (String c1 (String c2 (String c3 (String c4 "")))) <= 9999.
Proof.
  unfold Py.e_digito. cbn [Py.int_digitos].
  destruct (Py.digito c1) as [d1|] eqn:E1; [|discriminate].
  destruct (Py.digito c2) as [d2|] eqn:E2; [|discriminate].
  destruct (Py.digito c3) as [d3|] eqn:E3; [|discriminate].
  destruct (Py.digito c4) as [d4|] eqn:E4; [|discriminate].
  apply digito_intervalo in E1, E2, E3, E4. intros _ _ _ _. lia.
Qed.

Lemma casa_competencia_intervalo (s g1 g2 : string) :
  casa_competencia s = Some (g1, g2) ->
  0 <= Py.int_digitos 0 g1 <= 99 /\ 0 <= Py.int_digitos 0 g2 <= 9999.
Proof.
  unfold casa_competencia.
  destruct s as [|c1 [|c2 [|b [|c3 [|c4 [|c5 [|c6 r]]]]]]]; try discriminate;
    destruct b as [[|] [|] [|] [|] [|] [|] [|] [|]]; try discriminate.
  destruct (Py.e_digito c1) eqn:E1; [|discriminate].
  destruct (Py.e_digito c2) eqn:E2; [|discriminate].
  destruct (Py.e_digito c3) eqn:E3; [|discriminate].
  destruct (Py.e_digito c4) eqn:E4; [|discriminate].
  destruct (Py.e_digito c5) eqn:E5; [|discriminate].
  destruct (Py.e_digito c6) eqn:E6; [|discriminate].
  cbn [andb]. intros [= <- <-].
  split; [now apply int_digitos_2|now apply int_digitos_4].
Qed.

Lemma re_competencia_intervalo (s g1 g2 : string) :
  re_competencia s = Some (g1, g2) ->
  0 <= Py.int_digitos 0 g1 <= 99 /\ 0 <= Py.int_digitos 0 g2 <= 9999.
Proof.
  induction s as [|c r IH].
  - simpl. discriminate.
  - cbn [re_competencia].
    destruct (casa_competencia (String c r)) as [[h1 h2]|] eqn:E.
    + intros [= <- <-]. eapply casa_competencia_intervalo, E.
    + exact IH.
Qed.

Lemma competencia_intervalo (l : linha) (m y : Z) :
  competencia l = Some (m, y) -> 0 <= m <= 99 /\ 0 <= y <= 9999.
Proof.
  unfold competencia.
  destruct (td_competencia l) as [txt|]; [|discriminate].
  destruct (re_competencia txt) as [[g1 g2]|] eqn:E; [|discriminate].
  intros [= <- <-]. eapply re_competencia_intervalo, E.
Qed.

(** X2. The month of a record is what two digits can write, 0 to 99,
    not necessarily a month of the calendar; and a record exists only
    for a target year that four digits can write, 0 to 9999. *)
Theorem processar_pagina_intervalos
  (html : pagina) (a : Z) (mf : option Z) (n : nota float) :
  In n (fst (processar_pagina html a mf)) ->
  0 <= mes n <= 99 /\ ano n = a /\ 0 <= a <= 9999.
Proof.
  intros H. apply processar_pagina_in in H as (linhas & l & _ & _ & Hp).
  apply processar_linha_append in Hp as (m & txt & v & Hc & _ & _ & _ & _ & ->).
  apply competencia_intervalo in Hc. simpl. tauto.
Qed.

Lemma processar_pagina_intervalos_witness :
  0 <= 3 <= 99 /\ 2025 = 2025 /\ 0 <= 2025 <= 9999.
Proof.
  apply (processar_pagina_intervalos pagina_marco 2025 (Some 3)
           (Nota 3 2025 100%float "Autorizada")).
  left. reflexivity.
Defined.

(** ** The amounts: points and commas *)

Lemma append_assoc' (a b c : string) : ((a ++ b) ++ c = a ++ (b ++ c))%string.
Proof. induction a as [|x a IH]; simpl; [reflexivity|]. now rewrite IH. Qed.

Lemma replace_app (old : ascii) (new s1 s2 : string) :
  Py.replace old new (s1 ++ s2)%string
  = (Py.replace old new s1 ++ Py.replace old new s2)%string.
Proof.
  induction s1 as [|c s1 IH]; simpl; [reflexivity|].
  now rewrite IH, append_assoc'.
Qed.

Lemma replace_sem_efeito (old : ascii) (new s : string) :
  conta old s = O -> Py.replace old new s = s.
Proof.
  induction s as [|c s IH]; simpl; [reflexivity|].
  destruct (Ascii.eqb c old); simpl; [discriminate|].
  intros H. now rewrite IH.
Qed.

Lemma conta_replace_vazio (old c : ascii) (s : string) :
  conta c (Py.replace old "" s) = if Ascii.eqb old c then O else conta c s.
Proof.
  induction s as [|d s IH]; simpl.
  - now destruct (Ascii.eqb old c).
  - destruct (Ascii.eqb_spec d old) as [->|N]; simpl.
    + rewrite IH. destruct (Ascii.eqb old c); reflexivity.
    + rewrite IH. destruct (Ascii.eqb_spec old c) as [<-|N']; [|reflexivity].
      destruct (Ascii.eqb_spec d old); [contradiction|reflexivity].
Qed.

(** X3. A point in the amount text is dropped wherever it stands: the
    amount read is that of the text without its points. So "1.234,56",
    "12.34,56" and "1234,56" all read 1234.56, and a text that uses the
    point as decimal separator, as "12.34", reads 1234.0. *)
Theorem parse_valor_ignora_pontos :
  (forall s, parse_valor (Py.replace "." "" s) = parse_valor s) /\
  (forall s1 s2, parse_valor (s1 ++ String "." s2) = parse_valor (s1 ++ s2)) /\
  parse_valor "12.34" = Some 1234%float.
Proof.
  split; [|split].
  - intros s. unfold parse_valor. f_equal. f_equal.
    apply replace_sem_efeito. now rewrite conta_replace_vazio.
  - intros s1 s2. unfold parse_valor. now rewrite !replace_app.
  - reflexivity.
Qed.

Lemma conta_app (c : ascii) (s1 s2 : string) :
  conta c (s1 ++ s2)%string = (conta c s1 + conta c s2)%nat.
Proof. induction s1 as [|d s1 IH]; simpl; [reflexivity|]. rewrite IH. lia. Qed.

Lemma conta_ponto_virgula (u : string) :
  conta "." (Py.replace "," "." u) = (conta "," u + conta "." u)%nat.
Proof.
  induction u as [|d u IH]; [reflexivity|].
  cbn [Py.replace]. rewrite conta_app, IH. cbn [conta].
  destruct (Ascii.eqb_spec d ",") as [->|N]; simpl; [lia|].
  destruct (Ascii.eqb d "."); lia.
Qed.

Lemma isspace_nao_ponto (c : ascii) : Py.isspace_c c = true -> Ascii.eqb c "." = false.
Proof.
  destruct c as [[|] [|] [|] [|] [|] [|] [|] [|]]; vm_compute; congruence.
Qed.

Lemma e_digito_nao_ponto (c : ascii) : Py.e_digito c = true -> Ascii.eqb c "." = false.
Proof.
  destruct c as [[|] [|] [|] [|] [|] [|] [|] [|]]; vm_compute; congruence.
Qed.

Lemma minuscula_ponto (c : ascii) : Ascii.eqb (Py.minuscula c) "." = Ascii.eqb c ".".
Proof.
  destruct c as [[|] [|] [|] [|] [|] [|] [|] [|]]; vm_compute; reflexivity.
Qed.

Lemma minuscula_e_nao_ponto (c : ascii) :
  Ascii.eqb (Py.minuscula c) "e" = true -> Ascii.eqb c "." = false.
Proof.
  destruct c as [[|] [|] [|] [|] [|] [|] [|] [|]]; vm_compute; congruence.
Qed.

Lemma conta_lstrip (s : string) : conta "." (Py.lstrip_c s) = conta "." s.
Proof.
  induction s as [|c s IH]; [reflexivity|]. cbn [Py.lstrip_c].
  destruct (Py.isspace_c c) eqn:E; [|reflexivity].
  cbn [conta]. now rewrite IH, (isspace_nao_ponto c E).
Qed.

Lemma conta_rstrip (s : string) : conta "." (Py.rstrip_c s) = conta "." s.
Proof.
  induction s as [|c s IH]; [reflexivity|]. cbn [Py.rstrip_c conta].
  rewrite <- IH. destruct (Py.rstrip_c s) as [|d r]; [|reflexivity].
  destruct (Py.isspace_c c) eqn:E; [|reflexivity].
  now rewrite (isspace_nao_ponto c E).
Qed.

Lemma conta_sem_sublinhados (u : string) :
  forall prev v, Py.sem_sublinhados prev u = Some v -> conta "." v = conta "." u.
Proof.
  induction u as [|c u IH]; intros prev v; cbn [Py.sem_sublinhados].
  - now intros [= <-].
  - destruct (Ascii.eqb_spec c "_") as [->|N].
    + destruct (Py.e_digito prev); [|discriminate].
      destruct u as [|c' u']; [discriminate|].
      destruct (Py.e_digito c'); [|discriminate].
      intros H. apply IH in H. rewrite H. reflexivity.
    + destruct (Py.sem_sublinhados c u) as [w|] eqn:E; [|discriminate].
      simpl. intros [= <-]. cbn [conta]. now rewrite (IH c w E).
Qed.

Lemma conta_sinal (v : string) : conta "." (snd (Py.sinal v)) = conta "." v.
Proof.
  destruct v as [|c r]; [reflexivity|].
  destruct c as [[|] [|] [|] [|] [|] [|] [|] [|]]; reflexivity.
Qed.

Lemma conta_minusculas (r : string) : conta "." (Py.minusculas r) = conta "." r.
Proof.
  induction r as [|c r IH]; [reflexivity|].
  cbn [Py.minusculas conta]. now rewrite IH, minuscula_ponto.
Qed.

Lemma so_digitos_sem_ponto (s : string) : so_digitos s = true -> conta "." s = O.
Proof.
  induction s as [|c s IH]; [reflexivity|]. cbn [so_digitos conta].
  intros H. apply andb_prop in H as [Hc Hs].
  now rewrite (e_digito_nao_ponto c Hc), IH.
Qed.

Lemma digitos_spec (s : string) :
  so_digitos (fst (Py.digitos s)) = true /\
  s = (fst (Py.digitos s) ++ snd (Py.digitos s))%string.
Proof.
  induction s as [|c s [IH1 IH2]]; [split; reflexivity|]. cbn [Py.digitos].
  destruct (Py.e_digito c) eqn:E; [|split; reflexivity].
  destruct (Py.digitos s) as [d t]. simpl in *. rewrite E, IH1. split; [reflexivity|].
  now rewrite <- IH2.
Qed.

Lemma conta_digitos (s : string) : conta "." (snd (Py.digitos s)) = conta "." s.
Proof.
  destruct (digitos_spec s) as [H1 H2].
  rewrite H2 at 2. rewrite conta_app, (so_digitos_sem_ponto _ H1). reflexivity.
Qed.

Lemma expoente_sem_ponto (r : string) (e : Z) :
  Py.expoente r = Some e -> conta "." r = O.
Proof.
  destruct r as [|c r]; [reflexivity|]. cbn [Py.expoente conta].
  destruct (Ascii.eqb (Py.minuscula c) "e") eqn:E; [|discriminate].
  rewrite (minuscula_e_nao_ponto c E).
  destruct (Py.sinal r) as [neg r1] eqn:S.
  pose proof (conta_sinal r) as Hs. rewrite S in Hs. simpl in Hs. rewrite <- Hs.
  pose proof (digitos_spec r1) as [H1 H2].
  destruct (Py.digitos r1) as [ds t]. simpl in *.
  destruct ds as [|d ds]; [discriminate|]. destruct t; [|discriminate].
  intros _. rewrite H2, conta_app. now rewrite (so_digitos_sem_ponto _ H1).
Qed.

Lemma parte_fracionaria (r : string) :
  match r with
  | String "." r' => Py.digitos r'
  | _ => (EmptyString, r)
  end
  = match r with
    | String c r' => if Ascii.eqb c "." then Py.digitos r' else (EmptyString, r)
    | EmptyString => (EmptyString, r)
    end.
Proof.
  destruct r as [|c r']; [reflexivity|].
  destruct c as [[|] [|] [|] [|] [|] [|] [|] [|]]; reflexivity.
Qed.

Lemma float_decimal_dois_pontos (neg : bool) (r : string) :
  (2 <= conta "." r)%nat -> Py.float_decimal neg r = None.
Proof.
  intros H. unfold Py.float_decimal.
  pose proof (conta_digitos r) as Hd.
  destruct (Py.digitos r) as [ip rest]. simpl in Hd.
  rewrite parte_fracionaria.
  assert (K : (1 <= conta "." (snd (match rest with
                 | String c r' => if Ascii.eqb c "." then Py.digitos r' else (EmptyString, rest)
                 | EmptyString => (EmptyString, rest)
                 end)))%nat).
  { destruct rest as [|c r']; [simpl in *; lia|].
    destruct (Ascii.eqb c ".") eqn:E.
    - rewrite conta_digitos. cbn [conta] in Hd. rewrite E in Hd. lia.
    - simpl snd. lia. }
  destruct (match rest with
            | String c r' => if Ascii.eqb c "." then Py.digitos r' else (EmptyString, rest)
            | EmptyString => (EmptyString, rest)
            end) as [fp r1].
  simpl in K.
  destruct (ip ++ fp)%string; [reflexivity|].
  destruct (Py.expoente r1) as [e|] eqn:E; [|reflexivity].
  apply expoente_sem_ponto in E. lia.
Qed.

Lemma float_dois_pontos (t : string) :
  (2 <= conta "." t)%nat -> Py.float t = None.
Proof.
  intros H. unfold Py.float.
  assert (Hs : conta "." (Py.strip_c t) = conta "." t).
  { unfold Py.strip_c. now rewrite conta_rstrip, conta_lstrip. }
  destruct (Py.sem_sublinhados "000" (Py.strip_c t)) as [u|] eqn:E; [|reflexivity].
  apply conta_sem_sublinhados in E.
  pose proof (conta_sinal u) as Hu.
  destruct (Py.sinal u) as [neg r]. simpl in Hu.
  assert (Hr : (2 <= conta "." r)%nat) by lia.
  pose proof (conta_minusculas r) as Hm.
  destruct (String.eqb_spec (Py.minusculas r) "inf") as [E1|_];
    [rewrite E1 in Hm; simpl in Hm; lia|].
  destruct (String.eqb_spec (Py.minusculas r) "infinity") as [E2|_];
    [rewrite E2 in Hm; simpl in Hm; lia|].
  destruct (String.eqb_spec (Py.minusculas r) "nan") as [E3|_];
    [rewrite E3 in Hm; simpl in Hm; lia|].
  simpl. now apply float_decimal_dois_pontos.
Qed.

(** X4. An amount text with two commas or more is rejected, whatever
    else it holds: each comma becomes a decimal point and [float] takes
    one at most. A row with such a text in its amount cell gives no
    record. *)
Theorem parse_valor_duas_virgulas (s : string) :
  (2 <= conta "," s)%nat ->
  parse_valor s = None /\
  (forall l a mf n, td_valor l = Some s -> processar_linha l a mf <> Append n).
Proof.
  intros H.
  assert (P : parse_valor s = None).
  { unfold parse_valor. apply float_dois_pontos.
    rewrite conta_ponto_virgula, !conta_replace_vazio. simpl. lia. }
  split; [exact P|].
  intros l a mf n Hv. eapply processar_linha_valor_invalido; eassumption.
Qed.

Lemma parse_valor_duas_virgulas_witness :
  parse_valor "1,234,567" = None /\
  (forall l a mf n, td_valor l = Some "1,234,567" -> processar_linha l a mf <> Append n).
Proof.
  apply (parse_valor_duas_virgulas "1,234,567"). simpl. lia.
Defined.

(** ** The paginator: how a run ends *)

Lemma paginas_desde_snoc (q : Z) (j : nat) :
  paginas_desde q (S j) = paginas_desde q j ++ [q + Z.of_nat j].
Proof.
  revert q. induction j as [|j IH]; intros q.
  - simpl. now rewrite Z.add_0_r.
  - change (paginas_desde q (S (S j))) with (q :: paginas_desde (q + 1) (S j)).
    rewrite IH. cbn [paginas_desde app]. do 3 f_equal. lia.
Qed.

Lemma notas_da_pagina_resposta (s : sessao) (a : Z) (mf : option Z) (p st : Z)
  (text : pagina) :
  get s (url_pagina p) = Resposta st text ->
  notas_da_pagina s a mf p = fst (processar_pagina text a mf).
Proof. intros H. unfold notas_da_pagina. now rewrite H. Qed.

(** X5. When the pages 1 to [k] let the paginator through and page
    [k + 1] answers with status 200 but either its scan asks to stop or
    it announces no next page, [consultar_notas] returns the records of
    the pages 1 to [k + 1], in page order, after fetching exactly these
    pages, each once. *)
Theorem consultar_notas_termina (s : sessao) (a : Z) (mf : option Z) (k fuel : nat)
  (text : pagina) :
  Forall (fun q => passa s a mf q = true) (paginas_desde 1 k) ->
  (k < fuel)%nat ->
  get s (url_pagina (1 + Z.of_nat k)) = Resposta 200 text ->
  snd (processar_pagina text a mf) = false \/ proxima text = false ->
  consultar_notas fuel (Some s) a mf
  = (gets (paginas_desde 1 (S k)),
     Retorna (flat_map (notas_da_pagina s a mf) (paginas_desde 1 (S k)))).
Proof.
  intros Hk Hf Hr Hstop.
  destruct fuel as [|f]; [lia|].
  replace (S f) with (k + S (f - k))%nat by lia.
  unfold consultar_notas.
  rewrite (consultar_notas_de_avanca s a mf k 1 [] _ Hk), (paginas_desde_snoc 1 k).
  unfold gets. rewrite map_app, flat_map_app.
  cbn [consultar_notas_de session_get flat_map]. rewrite Hr.
  rewrite (notas_da_pagina_resposta s a mf _ _ _ Hr), app_nil_r.
  unfold bind, tell, ret. cbn [fst snd Z.eqb negb Pos.eqb].
  destruct (processar_pagina text a mf) as [ns c]. simpl in Hstop. simpl.
  destruct c; simpl.
  - destruct Hstop as [Hc|Hp]; [discriminate|]. rewrite Hp. reflexivity.
  - reflexivity.
Qed.

Lemma consultar_notas_termina_witness :
  consultar_notas 5 (Some sessao_duas_paginas) 2025 None
  = ([EvGet (url_pagina 1); EvGet (url_pagina 2)],
     Retorna [Nota 5 2025 200%float "Autorizada"; Nota 3 2025 100%float "Autorizada"]).
Proof.
  refine (consultar_notas_termina sessao_duas_paginas 2025 None 1 5
            (Pagina (Some [linha_de "03/2025" "GERADA" "100,00"]) false None) _ _ eq_refl _).
  - repeat constructor.
  - lia.
  - right. reflexivity.
Defined.

(** X6. The loop has no page limit: while every page answers with status
    200, asks to continue and announces a next page, the paginator goes
    on; after any number [n] of turns it has fetched the pages 1 to [n]
    and has not returned. *)
Theorem consultar_notas_sem_limite (s : sessao) (a : Z) (mf : option Z) (n : nat) :
  Forall (fun q => passa s a mf q = true) (paginas_desde 1 n) ->
  consultar_notas n (Some s) a mf = (gets (paginas_desde 1 n), SemFuel).
Proof.
  intros H. unfold consultar_notas.
  rewrite <- (Nat.add_0_r n) at 1.
  rewrite (consultar_notas_de_avanca s a mf n 1 [] 0 H).
  simpl. now rewrite app_nil_r.
Qed.

Lemma consultar_notas_sem_limite_witness :
  consultar_notas 3 (Some sessao_sem_fim) 2025 None
  = ([EvGet (url_pagina 1); EvGet (url_pagina 2); EvGet (url_pagina 3)], SemFuel).
Proof.
  apply (consultar_notas_sem_limite sessao_sem_fim 2025 None 3).
  repeat constructor.
Defined.

(** ** The paginator: what it fetches and what it returns *)

Lemma consultar_notas_de_traco (s : sessao) (a : Z) (mf : option Z) (fuel : nat) :
  forall acc p,
  exists j,
    (j <= fuel)%nat /\
    fst (consultar_notas_de fuel (Some s) a mf acc p) = gets (paginas_desde p j) /\
    forall ns,
      snd (consultar_notas_de fuel (Some s) a mf acc p) = Retorna ns ->
      exists j', (j' <= j)%nat /\
                 ns = acc ++ flat_map (notas_da_pagina s a mf) (paginas_desde p j').
Proof.
  induction fuel as [|fuel IH]; intros acc p.
  - exists O. repeat split; [lia|]. simpl. discriminate.
  - cbn [consultar_notas_de session_get].
    destruct (get s (url_pagina p)) as [msg|st text] eqn:G.
    + exists 1%nat. repeat split; [lia|]. simpl. discriminate.
    + unfold bind, tell, ret. cbn [fst snd].
      destruct (negb (st =? 200)) eqn:St.
      { exists 1%nat. repeat split; [lia|]. simpl. intros ns [= <-].
        exists O. split; [lia|]. simpl. now rewrite app_nil_r. }
      pose proof (notas_da_pagina_resposta s a mf p st text G) as Hn.
      destruct (processar_pagina text a mf) as [ps c]. simpl in Hn.
      assert (Hstop : forall ns, Retorna (acc ++ ps) = Retorna ns ->
                exists j', (j' <= 1)%nat /\
                  ns = acc ++ flat_map (notas_da_pagina s a mf) (paginas_desde p j')).
      { intros ns [= <-]. exists 1%nat. split; [lia|]. simpl. now rewrite Hn, app_nil_r. }
      destruct (negb c).
      { exists 1%nat. repeat split; [lia|exact Hstop]. }
      destruct (negb (proxima text)).
      { exists 1%nat. repeat split; [lia|exact Hstop]. }
      destruct (IH (acc ++ ps) (p + 1)) as (j & Hj & Ht & Hr).
      destruct (consultar_notas_de fuel (Some s) a mf (acc ++ ps) (p + 1)) as [t r].
      simpl in Ht, Hr. exists (S j). split; [lia|]. split.
      * simpl. now rewrite Ht.
      * simpl. intros ns E. destruct (Hr ns E) as (j' & Hj' & ->).
        exists (S j'). split; [lia|]. simpl. now rewrite Hn, app_assoc.
Qed.

(** X7. Whatever the portal answers, [consultar_notas] fetches the pages
    1, 2, 3, ... in this order, each once and none skipped, at most one
    per turn; and when it returns, the records are those of the first
    pages fetched (all of them, or all but the last), in page order. *)
Theorem consultar_notas_em_ordem (s : sessao) (a : Z) (mf : option Z) (fuel : nat) :
  exists j,
    (j <= fuel)%nat /\
    fst (consultar_notas fuel (Some s) a mf) = gets (paginas_desde 1 j) /\
    forall ns,
      snd (consultar_notas fuel (Some s) a mf) = Retorna ns ->
      exists j', (j' <= j)%nat /\
                 ns = flat_map (notas_da_pagina s a mf) (paginas_desde 1 j').
Proof. apply (consultar_notas_de_traco s a mf fuel [] 1). Qed.

Lemma consultar_notas_de_escopo (session : option sessao) (a : Z) (mf : option Z)
  (fuel : nat) :
  forall acc p ns,
    Forall (no_escopo a mf) acc ->
    snd (consultar_notas_de fuel session a mf acc p) = Retorna ns ->
    Forall (no_escopo a mf) ns.
Proof.
  induction fuel as [|fuel IH]; intros acc p ns Hacc; [discriminate|].
  cbn [consultar_notas_de]. unfold session_get.
  destruct session as [s|]; [|discriminate].
  unfold bind, tell, ret. cbn [fst snd].
  destruct (get s (url_pagina p)) as [msg|st text]; [discriminate|].
  destruct (negb (st =? 200)); [now intros [= <-]|].
  assert (Hp : Forall (no_escopo a mf) (fst (processar_pagina text a mf))).
  { unfold processar_pagina. destruct (tbody text) as [ls|]; [|constructor].
    apply processar_linhas_forall. }
  destruct (processar_pagina text a mf) as [ps c]. simpl in Hp.
  assert (Hall : Forall (no_escopo a mf) (acc ++ ps)).
  { apply Forall_app. now split. }
  destruct (negb c); [now intros [= <-]|].
  destruct (negb (proxima text)); [now intros [= <-]|].
  destruct (consultar_notas_de fuel (Some s) a mf (acc ++ ps) (p + 1)) as [t r] eqn:E.
  simpl. intros ->.
  apply (IH (acc ++ ps) (p + 1) ns Hall). now rewrite E.
Qed.

(** X8. Every record that [consultar_notas] returns, from whatever page,
    has the requested year and, under a month filter, the filtered month. *)
Theorem consultar_notas_escopo (session : option sessao) (a : Z) (mf : option Z)
  (fuel : nat) (ns : list (nota float)) :
  snd (consultar_notas fuel session a mf) = Retorna ns ->
  Forall (no_escopo a mf) ns.
Proof.
  apply consultar_notas_de_escopo. constructor.
Qed.

Lemma consultar_notas_escopo_witness :
  Forall (no_escopo 2025 None)
    [Nota 5 2025 200%float "Autorizada"; Nota 3 2025 100%float "Autorizada"].
Proof.
  apply (consultar_notas_escopo (Some sessao_duas_paginas) 2025 None 5).
  reflexivity.
Defined.

(** ** The paginator: the address of a page *)

Lemma append_inv_head (a b c : string) : (a ++ b = a ++ c)%string -> b = c.
Proof. induction a as [|x a IH]; simpl; [auto|]. intros [= H]. auto. Qed.

Lemma append_nao_vazio (a b : string) : (a = a ++ b)%string -> b = EmptyString.
Proof. induction a as [|x a IH]; simpl; [auto|]. intros [= H]. auto. Qed.

(** X9. Two different page indices are fetched at two different
    addresses: page 1 at the bare listing address, any other page at the
    address with its index in the [pg] parameter. *)
Theorem url_pagina_inj (p q : Z) : url_pagina p = url_pagina q -> p = q.
Proof.
  unfold url_pagina.
  destruct (Z.eqb_spec p 1) as [->|Hp], (Z.eqb_spec q 1) as [->|Hq]; intros H.
  - reflexivity.
  - apply append_nao_vazio in H. discriminate.
  - symmetry in H. apply append_nao_vazio in H. discriminate.
  - apply append_inv_head in H. injection H as H. now apply str_inj.
Qed.

Lemma url_pagina_inj_witness : 2 = 2.
Proof. apply (url_pagina_inj 2 2). reflexivity. Defined.

(** ** The aggregator: what each entry sums *)

Lemma dict_get_set {V : Type} (k k' : string) (v : V) (d : dict) :
  dict_get k (dict_set k' v d) = if String.eqb k' k then Some v else dict_get k d.
Proof.
  induction d as [|[k0 v0] d IH]; cbn [dict_set dict_get]; [reflexivity|].
  destruct (String.eqb_spec k0 k') as [->|N]; cbn [dict_get].
  - destruct (String.eqb k' k); reflexivity.
  - rewrite IH. destruct (String.eqb_spec k0 k) as [->|N0]; [|reflexivity].
    destruct (String.eqb_spec k' k) as [->|N1]; [now elim N|reflexivity].
Qed.

Lemma dict_get_none {V : Type} (k : string) (d : @dict V) :
  ~ In k (map fst d) -> dict_get k d = None.
Proof.
  induction d as [|[k0 v0] d IH]; simpl; [reflexivity|].
  intros H. destruct (String.eqb_spec k0 k) as [->|N]; [tauto|].
  apply IH. tauto.
Qed.

Lemma dict_get_fold_soma_nota {V : Type} (add : V -> V -> V) (ns : list (nota V)) :
  forall (d : dict) (k : string),
    dict_get k (fold_left (soma_nota add) ns d)
    = option_map
        (fun v => fold_left add
                    (map valor (filter (fun n => String.eqb (chave (mes n) (ano n)) k) ns)) v)
        (dict_get k d).
Proof.
  induction ns as [|n ns IH]; intros d k; cbn [fold_left filter].
  - now destruct (dict_get k d).
  - rewrite IH. unfold soma_nota at 1.
    destruct (String.eqb_spec (chave (mes n) (ano n)) k) as [E|N].
    + rewrite E. destruct (dict_get k d) as [v|] eqn:G; [|now rewrite G].
      rewrite dict_get_set, String.eqb_refl. reflexivity.
    + destruct (dict_get (chave (mes n) (ano n)) d) as [v|]; [|reflexivity].
      rewrite dict_get_set.
      destruct (String.eqb_spec (chave (mes n) (ano n)) k); [contradiction|reflexivity].
Qed.

Lemma dict_get_semente {V : Type} (zero : V) (a : Z) (ms : list Z) (k : Z) :
  In k ms -> dict_get (chave k a) (map (fun m => (chave m a, zero)) ms) = Some zero.
Proof.
  induction ms as [|m ms IH]; simpl; [contradiction|].
  intros H. destruct (String.eqb (chave m a) (chave k a)) eqn:E; [reflexivity|].
  destruct H as [->|H]; [now rewrite String.eqb_refl in E|auto].
Qed.

Lemma filter_do_mes {V : Type} (k a : Z) (ns : list (nota V)) :
  filter (fun n => String.eqb (chave (mes n) (ano n)) (chave k a)) ns
  = filter (do_mes k a) ns.
Proof.
  apply filter_ext. intros n. rewrite chave_eqb. unfold do_mes.
  now rewrite (Z.eqb_sym k), (Z.eqb_sym a).
Qed.

(** X10. With or without a month filter, the entry of each month in
    scope is the sum, added from the left in list order starting at 0.0,
    of the amounts of exactly the records of that month and of the
    requested year. *)
Theorem totalizar_entrada_do_mes (ns : list (nota float)) (a : Z) (mf : option Z) (k : Z) :
  In k (meses_em_escopo mf) ->
  dict_get (chave k a) (totalizar_por_mes ns a mf)
  = Some (fold_left PrimFloat.add (map valor (filter (do_mes k a) ns)) 0%float).
Proof.
  intros H. unfold totalizar_por_mes, totalizar_por_mes_em.
  rewrite dict_get_fold_soma_nota, meses_iniciais_zeros.
  rewrite (dict_get_semente 0%float a _ k H). simpl.
  now rewrite filter_do_mes.
Qed.

Lemma totalizar_entrada_do_mes_witness :
  dict_get "03/2025" (totalizar_por_mes notas_tres 2025 None) = Some 150.5%float.
Proof.
  refine (totalizar_entrada_do_mes notas_tres 2025 None 3 _).
  simpl. tauto.
Defined.

Lemma chave_fora_da_semente {V : Type} (zero : V) (a : Z) (mf : option Z) (n : nota V) :
  ~ In (mes n) (meses_em_escopo mf) \/ ano n <> a ->
  ~ In (chave (mes n) (ano n)) (map fst (meses_iniciais zero a mf)).
Proof.
  intros H K. rewrite meses_iniciais_zeros, map_map in K. simpl in K.
  apply in_map_iff in K as (m & E & Hm).
  apply chave_inj in E as [E1 E2].
  destruct H as [H|H]; [apply H; now rewrite <- E1|congruence].
Qed.

(** X11. A record whose month is not in scope, or whose year is not the
    requested one, changes nothing in the totals: they are those of the
    list without it. *)
Theorem totalizar_ignora_fora_de_escopo
  (ns1 ns2 : list (nota float)) (n : nota float) (a : Z) (mf : option Z) :
  ~ In (mes n) (meses_em_escopo mf) \/ ano n <> a ->
  totalizar_por_mes (ns1 ++ n :: ns2) a mf = totalizar_por_mes (ns1 ++ ns2) a mf.
Proof.
  intros H. unfold totalizar_por_mes, totalizar_por_mes_em.
  rewrite !fold_left_app. cbn [fold_left]. f_equal.
  assert (K : dict_get (chave (mes n) (ano n))
                (fold_left (soma_nota PrimFloat.add) ns1 (meses_iniciais 0%float a mf))
              = None).
  { apply dict_get_none.
    pose proof (totalizar_chaves 0%float PrimFloat.add ns1 a mf) as C.
    unfold totalizar_por_mes_em in C. rewrite C.
    now apply chave_fora_da_semente. }
  unfold soma_nota at 1. now rewrite K.
Qed.

Lemma totalizar_ignora_fora_de_escopo_witness :
  totalizar_por_mes
    ([Nota 3 2025 100%float "Autorizada"] ++
     Nota 13 2025 999.99%float "Autorizada" :: [Nota 5 2025 200%float "Autorizada"])
    2025 None
  = totalizar_por_mes
      ([Nota 3 2025 100%float "Autorizada"] ++ [Nota 5 2025 200%float "Autorizada"])
      2025 None.
Proof.
  apply totalizar_ignora_fora_de_escopo.
  left. simpl. intros H. repeat (destruct H as [H|H]; [discriminate H|]). exact H.
Defined.

(** ** The keys: no collision, and the scraper reads them back *)

(** X12. Two keys of the totals are equal only for the same month and
    the same year: no two months, and no two years, share an entry. *)
Theorem chave_distingue (m1 a1 m2 a2 : Z) :
  chave m1 a1 = chave m2 a2 <-> m1 = m2 /\ a1 = a2.
Proof.
  split; [apply chave_inj|]. now intros [-> ->].
Qed.

Lemma todos_desde_spec (f : Z -> bool) (n : nat) :
  forall lo, todos_desde f lo n = true ->
  forall z, lo <= z < lo + Z.of_nat n -> f z = true.
Proof.
  induction n as [|n IH]; intros lo H z Hz; [lia|].
  cbn [todos_desde] in H. apply andb_prop in H as [H0 H1].
  destruct (Z.eq_dec z lo) as [->|N]; [assumption|].
  apply (IH (lo + 1) H1). lia.
Qed.

Lemma fmt_02d_dois_digitos (m : Z) :
  0 <= m <= 99 -> le_de_volta 2 m (Py.fmt_02d m) = true.
Proof.
  intros H.
  apply (todos_desde_spec (fun z => le_de_volta 2 z (Py.fmt_02d z)) 100 0);
    [vm_compute; reflexivity|lia].
Qed.

Lemma str_quatro_digitos (a : Z) :
  1000 <= a <= 9999 -> le_de_volta 4 a (Py.str a) = true.
Proof.
  intros H.
  apply (todos_desde_spec (fun z => le_de_volta 4 z (Py.str z)) (Z.to_nat 9000) 1000);
    [vm_compute; reflexivity|lia].
Qed.

Lemma competencia_da_chave (m a : Z) (sit v : option string) :
  0 <= m <= 99 -> 1000 <= a <= 9999 ->
  String.length (chave m a) = 7%nat /\
  competencia (Linha (Some (chave m a)) sit v) = Some (m, a).
Proof.
  intros Hm Ha.
  pose proof (fmt_02d_dois_digitos m Hm) as F.
  pose proof (str_quatro_digitos a Ha) as S.
  unfold competencia, chave. cbn [td_competencia].
  unfold le_de_volta in F, S.
  destruct (Py.fmt_02d m) as [|c1 [|c2 [|c3 r]]]; try discriminate F.
  destruct (Py.str a) as [|d1 [|d2 [|d3 [|d4 [|d5 r]]]]]; try discriminate S.
  cbn [String.length Nat.eqb so_digitos andb] in F, S.
  apply andb_prop in F as [F Fv]. apply andb_prop in F as [F1 F2].
  rewrite andb_true_r in F2.
  apply andb_prop in S as [S Sv].
  apply andb_prop in S as [S1 S]. apply andb_prop in S as [S2 S].
  apply andb_prop in S as [S3 S4]. rewrite andb_true_r in S4.
  split; [reflexivity|].
  cbn [append re_competencia casa_competencia].
  rewrite F1, F2, S1, S2, S3, S4. cbn [andb].
  apply Z.eqb_eq in Fv, Sv. now rewrite Fv, Sv.
Qed.

(** X13. The key the aggregator writes for a month of two digits at most
    and a year of four digits has seven characters, and a row whose
    competence cell shows this key is read by the scraper as that month
    and that year: the label of the totals and the date format of the
    listing agree. *)
Theorem chave_lida_de_volta (m a : Z) (sit v : option string) :
  0 <= m <= 99 -> 1000 <= a <= 9999 ->
  String.length (chave m a) = 7%nat /\
  competencia (Linha (Some (chave m a)) sit v) = Some (m, a).
Proof. apply competencia_da_chave. Qed.

Lemma chave_lida_de_volta_witness :
  String.length (chave 3 2025) = 7%nat /\
  competencia (Linha (Some (chave 3 2025)) None None) = Some (3, 2025).
Proof. apply (chave_lida_de_volta 3 2025 None None); lia. Defined.

(** ** The handler: what a response is made of *)

Lemma consultar_retorna
  (autenticar_certificado : string -> string -> excecao + sessao)
  (autenticar_login : string -> string -> HTTPException + sessao)
  (fuel : nat) (req : ConsultaRequest.t) (t : list evento) (resp : ConsultaResponse.t) :
  consultar autenticar_certificado autenticar_login fuel req = (t, Retorna resp) ->
  exists session t0 t1 t2 c r ns,
    autenticar autenticar_certificado autenticar_login req = (t0, Retorna session) /\
    extrair_contribuinte session = (t1, Retorna (c, r)) /\
    consultar_notas fuel session (ConsultaRequest.ano req) (ConsultaRequest.mes req)
    = (t2, Retorna ns) /\
    resp = ConsultaResponse.mk c r (ConsultaRequest.ano req) (ConsultaRequest.mes req)
             (Z.of_nat (List.length ns)) (Py.sum (map valor ns)) 0%float
             (totalizar_por_mes ns (ConsultaRequest.ano req) (ConsultaRequest.mes req)).
Proof.
  unfold consultar.
  destruct (autenticar _ _ req) as [t0 [session|e|]] eqn:A; try discriminate.
  unfold responder.
  destruct (extrair_contribuinte session) as [t1 [[c r]|e|]] eqn:X; try discriminate.
  unfold bind at 1.
  destruct (consultar_notas fuel session _ _) as [t2 [ns|e|]] eqn:N; simpl;
    try discriminate.
  intros [= _ <-]. exists session, t0, t1, t2, c, r, ns. repeat split; assumption.
Qed.

(** X14. Whatever the portal lists, the monthly breakdown of a response
    has exactly the keys of the months in scope, in calendar order:
    the twelve months of the requested year, or the filtered month
    alone; and the response repeats the year and the month filter of
    the request. *)
Theorem consultar_chaves_da_resposta
  (autenticar_certificado : string -> string -> excecao + sessao)
  (autenticar_login : string -> string -> HTTPException + sessao)
  (fuel : nat) (req : ConsultaRequest.t) (t : list evento) (resp : ConsultaResponse.t) :
  consultar autenticar_certificado autenticar_login fuel req = (t, Retorna resp) ->
  map fst (ConsultaResponse.detalhamento_por_mes resp)
  = map (fun m => chave m (ConsultaRequest.ano req))
        (meses_em_escopo (ConsultaRequest.mes req)) /\
  ConsultaResponse.ano resp = ConsultaRequest.ano req /\
  ConsultaResponse.mes_filtrado resp = ConsultaRequest.mes req.
Proof.
  intros H. apply consultar_retorna in H as (session & t0 & t1 & t2 & c & r & ns & _ & _ & _ & ->).
  cbn [ConsultaResponse.detalhamento_por_mes ConsultaResponse.ano
       ConsultaResponse.mes_filtrado].
  split; [|split; reflexivity].
  unfold totalizar_por_mes. rewrite totalizar_chaves, meses_iniciais_zeros, map_map.
  reflexivity.
Qed.

Lemma consultar_chaves_da_resposta_witness :
  map fst (ConsultaResponse.detalhamento_por_mes
             (ConsultaResponse.mk "12.345.678/0001-90" "EMPRESA EXEMPLO LTDA" 2025 None
                3 350.5%float 0%float (totalizar_por_mes notas_tres 2025 None)))
  = map (fun m => chave m 2025) (meses_em_escopo None) /\
  2025 = 2025 /\ @None Z = None.
Proof.
  refine (consultar_chaves_da_resposta (fun _ _ => inr sessao_tres)
            (fun _ _ => inr sessao_tres) 1 req_login_2025 _ _ _).
  vm_compute. reflexivity.
Defined.

Lemma filter_todos {A : Type} (f : A -> bool) (l : list A) :
  Forall (fun x => f x = true) l -> filter f l = l.
Proof.
  induction 1 as [|x l Hx _ IH]; simpl; [reflexivity|]. now rewrite Hx, IH.
Qed.

Lemma extrair_contribuinte_sessao (s : sessao) :
  exists c n, extrair_contribuinte (Some s) = ([EvGet base_url], Retorna (c, n)).
Proof.
  unfold extrair_contribuinte, session_get, bind, tell, ret. cbn [fst snd app].
  destruct (get s base_url) as [msg|st text]; [eauto|].
  destruct (perfil text) as [[tx [c|]]|]; eauto.
Qed.

(** X15. Under a month filter, when authentication succeeds and the
    paginator returns the records [ns], the handler returns a response
    whose count is the number of these records and whose breakdown has
    one entry, for the filtered month, holding the amounts of all the
    records of [ns] added up from the left, starting at 0.0: every
    record counted is in the monthly total, and every one is of the
    filtered month of the requested year. *)
Theorem consultar_mes_filtrado
  (autenticar_certificado : string -> string -> excecao + sessao)
  (autenticar_login : string -> string -> HTTPException + sessao)
  (fuel : nat) (req : ConsultaRequest.t) (m : Z) (session : option sessao)
  (t0 t2 : list evento) (ns : list (nota float)) :
  ConsultaRequest.mes req = Some m ->
  autenticar autenticar_certificado autenticar_login req = (t0, Retorna session) ->
  consultar_notas fuel session (ConsultaRequest.ano req) (Some m) = (t2, Retorna ns) ->
  Forall (fun n => ano n = ConsultaRequest.ano req /\ mes n = m) ns /\
  exists (t : list evento) (resp : ConsultaResponse.t),
    consultar autenticar_certificado autenticar_login fuel req = (t, Retorna resp) /\
    ConsultaResponse.quantidade_autorizadas resp = Z.of_nat (List.length ns) /\
    ConsultaResponse.detalhamento_por_mes resp
    = [(chave m (ConsultaRequest.ano req),
        fold_left PrimFloat.add (map valor ns) 0%float)].
Proof.
  intros Hm A N.
  assert (S : Forall (no_escopo (ConsultaRequest.ano req) (Some m)) ns).
  { apply (consultar_notas_de_escopo session _ _ fuel [] 1 ns); [constructor|].
    unfold consultar_notas in N. now rewrite N. }
  split; [exact S|].
  assert (X : exists t1 c r, extrair_contribuinte session = (t1, Retorna (c, r))).
  { destruct session as [s|].
    - destruct (extrair_contribuinte_sessao s) as (c & r & E). eauto.
    - do 3 eexists. reflexivity. }
  destruct X as (t1 & c & r & X).
  unfold consultar. rewrite A. unfold responder. rewrite X. unfold bind at 1.
  rewrite Hm, N. cbn [fst snd]. unfold ret.
  do 2 eexists. split; [reflexivity|]. split; [reflexivity|].
  cbn [ConsultaResponse.detalhamento_por_mes].
  unfold totalizar_por_mes. rewrite totalizar_um_mes. unfold soma.
  rewrite filter_todos; [reflexivity|].
  eapply Forall_impl; [|exact S]. intros n [Ha Hn']. unfold do_mes.
  rewrite Ha, Hn', !Z.eqb_refl. reflexivity.
Qed.

Lemma consultar_mes_filtrado_witness :
  Forall (fun n => ano n = 2025 /\ mes n = 3) notas_marco /\
  exists (t : list evento) (resp : ConsultaResponse.t),
    consultar (fun _ _ => inr sessao_marco) (fun _ _ => inr sessao_marco) 1 req_login_marco
    = (t, Retorna resp) /\
    ConsultaResponse.quantidade_autorizadas resp = 3 /\
    ConsultaResponse.detalhamento_por_mes resp = [("03/2025", 157.5%float)].
Proof.
  exact (consultar_mes_filtrado (fun _ _ => inr sessao_marco) (fun _ _ => inr sessao_marco)
           1 req_login_marco 3 (Some sessao_marco)
           [EvAutenticarLogin "12345678000190" "segredo"] [EvGet base_url] notas_marco
           eq_refl eq_refl eq_refl).
Defined.

Lemma meses_do_ano_intervalo (m : Z) : In m meses_do_ano -> 1 <= m <= 12.
Proof.
  unfold meses_do_ano. simpl. intros H.
  repeat (destruct H as [<-|H]; [lia|]). contradiction.
Qed.

(** X16. For a request that passes the three validators (method 1 or 2,
    year 2000 to 2100, month absent or 1 to 12), every key of the
    breakdown of a response has seven characters, two digits, a slash
    and four digits, and reads back, as a competence date, as a month of
    the calendar in the requested year. *)
Theorem consultar_chaves_validas
  (autenticar_certificado : string -> string -> excecao + sessao)
  (autenticar_login : string -> string -> HTTPException + sessao)
  (fuel : nat) (req : ConsultaRequest.t) (t : list evento) (resp : ConsultaResponse.t) :
  ConsultaRequest.valido req = true ->
  consultar autenticar_certificado autenticar_login fuel req = (t, Retorna resp) ->
  Forall (fun k =>
            String.length k = 7%nat /\
            exists m, 1 <= m <= 12 /\
                      forall sit v,
                        competencia (Linha (Some k) sit v)
                        = Some (m, ConsultaRequest.ano req))
         (map fst (ConsultaResponse.detalhamento_por_mes resp)).
Proof.
  intros V H.
  apply consultar_retorna in H as (session & t0 & t1 & t2 & c & r & ns & _ & _ & _ & ->).
  cbn [ConsultaResponse.detalhamento_por_mes].
  unfold totalizar_por_mes. rewrite totalizar_chaves, meses_iniciais_zeros, map_map.
  cbn [fst]. unfold ConsultaRequest.valido in V.
  apply andb_prop in V as [V Vm]. apply andb_prop in V as [_ Va].
  apply negb_true_iff, orb_false_iff in Va as [Va1 Va2].
  apply Z.ltb_ge in Va1. rewrite Z.gtb_ltb in Va2. apply Z.ltb_ge in Va2.
  assert (Hs : forall m, In m (meses_em_escopo (ConsultaRequest.mes req)) -> 1 <= m <= 12).
  { intros m Hm. destruct (ConsultaRequest.mes req) as [f|]; simpl in Hm.
    - destruct Hm as [<-|[]].
      apply negb_true_iff, orb_false_iff in Vm as [V1 V2].
      apply Z.ltb_ge in V1. rewrite Z.gtb_ltb in V2. apply Z.ltb_ge in V2. lia.
    - now apply meses_do_ano_intervalo. }
  apply Forall_forall. intros k Hk.
  apply in_map_iff in Hk as (m & <- & Hm). specialize (Hs m Hm).
  split.
  - apply (competencia_da_chave m (ConsultaRequest.ano req) None None); lia.
  - exists m. split; [exact Hs|]. intros sit v.
    apply (competencia_da_chave m (ConsultaRequest.ano req) sit v); lia.
Qed.

Lemma consultar_chaves_validas_witness :
  Forall (fun k =>
            String.length k = 7%nat /\
            exists m, 1 <= m <= 12 /\
                      forall sit v, competencia (Linha (Some k) sit v) = Some (m, 2025))
         (map fst (totalizar_por_mes notas_tres 2025 None)).
Proof.
  refine (consultar_chaves_validas (fun _ _ => inr sessao_tres) (fun _ _ => inr sessao_tres)
            1 req_login_2025 _ (ConsultaResponse.mk _ _ _ _ _ _ _ _) eq_refl _).
  vm_compute. reflexivity.
Defined.

(** ** The handler: errors and the order of the calls *)

(** X17. A request whose [auth_method] is neither 1 nor 2 (one that did
    not go through the validator) is not authenticated: [session] stays
    [None], the profile lookup swallows the failure, and the paginator
    turns it into an [HTTPException] of status 500 naming page 1; no
    call leaves the process. *)
Theorem consultar_metodo_desconhecido
  (autenticar_certificado : string -> string -> excecao + sessao)
  (autenticar_login : string -> string -> HTTPException + sessao)
  (fuel : nat) (req : ConsultaRequest.t) :
  ConsultaRequest.auth_method req <> 1 ->
  ConsultaRequest.auth_method req <> 2 ->
  consultar autenticar_certificado autenticar_login (S fuel) req
  = ([], Levanta (mkHTTPException 500
                    "Erro ao consultar página 1: 'NoneType' object has no attribute 'get'")).
Proof.
  intros H1 H2. unfold consultar, autenticar.
  destruct (Z.eqb_spec (ConsultaRequest.auth_method req) 1); [contradiction|].
  destruct (Z.eqb_spec (ConsultaRequest.auth_method req) 2); [contradiction|].
  reflexivity.
Qed.

Lemma consultar_metodo_desconhecido_witness :
  consultar (fun _ _ => inr sessao_tres) (fun _ _ => inr sessao_tres) 1
    (ConsultaRequest.mk 3 2025 None None None (Some "1") (Some "s"))
  = ([], Levanta (mkHTTPException 500
                    "Erro ao consultar página 1: 'NoneType' object has no attribute 'get'")).
Proof.
  apply (consultar_metodo_desconhecido _ _ 0
           (ConsultaRequest.mk 3 2025 None None None (Some "1") (Some "s")));
    discriminate.
Defined.

(** X18. When the credential fields are present and the authenticator
    of the chosen method fails, the authentication attempt is the only
    call made: the listing is never fetched and the handler cleans
    nothing up. An [HTTPException] raised by either authenticator is
    raised by [consultar] unchanged; any other exception raised by
    [autenticar_certificado] becomes an [HTTPException] of status 500
    whose detail is "Erro inesperado: " followed by its message. *)
Theorem consultar_autenticacao_falha
  (autenticar_certificado : string -> string -> excecao + sessao)
  (autenticar_login : string -> string -> HTTPException + sessao)
  (fuel : nat) (req : ConsultaRequest.t) :
  (forall e,
      ConsultaRequest.auth_method req = 1 ->
      falsy (ConsultaRequest.cert_base64 req) = false ->
      falsy (ConsultaRequest.cert_senha req) = false ->
      autenticar_certificado (texto (ConsultaRequest.cert_base64 req))
                             (texto (ConsultaRequest.cert_senha req)) = inl (ExcHTTP e) ->
      consultar autenticar_certificado autenticar_login fuel req
      = ([EvAutenticarCertificado (texto (ConsultaRequest.cert_base64 req))
                                  (texto (ConsultaRequest.cert_senha req))],
         Levanta e)) /\
  (forall msg,
      ConsultaRequest.auth_method req = 1 ->
      falsy (ConsultaRequest.cert_base64 req) = false ->
      falsy (ConsultaRequest.cert_senha req) = false ->
      autenticar_certificado (texto (ConsultaRequest.cert_base64 req))
                             (texto (ConsultaRequest.cert_senha req)) = inl (ExcOutra msg) ->
      consultar autenticar_certificado autenticar_login fuel req
      = ([EvAutenticarCertificado (texto (ConsultaRequest.cert_base64 req))
                                  (texto (ConsultaRequest.cert_senha req))],
         Levanta (mkHTTPException 500 ("Erro inesperado: " ++ msg)))) /\
  (forall e,
      ConsultaRequest.auth_method req = 2 ->
      falsy (ConsultaRequest.cnpj req) = false ->
      falsy (ConsultaRequest.senha req) = false ->
      autenticar_login (texto (ConsultaRequest.cnpj req))
                       (texto (ConsultaRequest.senha req)) = inl e ->
      consultar autenticar_certificado autenticar_login fuel req
      = ([EvAutenticarLogin (texto (ConsultaRequest.cnpj req))
                            (texto (ConsultaRequest.senha req))],
         Levanta e)).
Proof.
  unfold consultar, autenticar. split; [|split].
  - intros e -> -> -> H. simpl. unfold bind, tell, autenticado_certificado. now rewrite H.
  - intros msg -> -> -> H. simpl. unfold bind, tell, autenticado_certificado.
    now rewrite H.
  - intros e -> -> -> H. simpl. unfold bind, tell, autenticado. now rewrite H.
Qed.

Lemma consultar_autenticacao_falha_witness :
  consultar (fun _ _ => inl (ExcHTTP (mkHTTPException 401 "Falha")))
            (fun _ _ => inr sessao_tres) 1
            (ConsultaRequest.mk 1 2025 None (Some "MIIK") (Some "senha") None None)
  = ([EvAutenticarCertificado "MIIK" "senha"], Levanta (mkHTTPException 401 "Falha")) /\
  consultar (fun _ _ => inl (ExcOutra "'NoneType' object has no attribute 'public_bytes'"))
            (fun _ _ => inr sessao_tres) 1
            (ConsultaRequest.mk 1 2025 None (Some "MIIK") (Some "senha") None None)
  = ([EvAutenticarCertificado "MIIK" "senha"],
     Levanta (mkHTTPException 500
                "Erro inesperado: 'NoneType' object has no attribute 'public_bytes'")) /\
  consultar (fun _ _ => inr sessao_tres)
            (fun _ _ => inl (mkHTTPException 401 "Credenciais inválidas")) 1 req_login_2025
  = ([EvAutenticarLogin "12345678000190" "segredo"],
     Levanta (mkHTTPException 401 "Credenciais inválidas")).
Proof.
  split; [|split].
  - exact (proj1 (consultar_autenticacao_falha
                    (fun _ _ => inl (ExcHTTP (mkHTTPException 401 "Falha")))
                    (fun _ _ => inr sessao_tres) 1
                    (ConsultaRequest.mk 1 2025 None (Some "MIIK") (Some "senha") None None))
             (mkHTTPException 401 "Falha") eq_refl eq_refl eq_refl eq_refl).
  - exact (proj1 (proj2 (consultar_autenticacao_falha
                    (fun _ _ => inl (ExcOutra "'NoneType' object has no attribute 'public_bytes'"))
                    (fun _ _ => inr sessao_tres) 1
                    (ConsultaRequest.mk 1 2025 None (Some "MIIK") (Some "senha") None None)))
             "'NoneType' object has no attribute 'public_bytes'"
             eq_refl eq_refl eq_refl eq_refl).
  - exact (proj2 (proj2 (consultar_autenticacao_falha (fun _ _ => inr sessao_tres)
                    (fun _ _ => inl (mkHTTPException 401 "Credenciais inválidas"))
                    1 req_login_2025))
             (mkHTTPException 401 "Credenciais inválidas")
             eq_refl eq_refl eq_refl eq_refl).
Defined.

(** X19. Once a session is established, the handler fetches the listing
    once for the profile and then the pages 1, 2, 3, ... in order, and,
    whether the run ends in a response or in an error, it cleans up
    exactly once, after every other call. *)
Theorem consultar_ordem_das_chamadas
  (autenticar_certificado : string -> string -> excecao + sessao)
  (autenticar_login : string -> string -> HTTPException + sessao)
  (fuel : nat) (req : ConsultaRequest.t) (t0 : list evento) (s : sessao) :
  autenticar autenticar_certificado autenticar_login req = (t0, Retorna (Some s)) ->
  exists j,
    (j <= fuel)%nat /\
    fst (consultar autenticar_certificado autenticar_login fuel req)
    = t0 ++ EvGet base_url :: gets (paginas_desde 1 j)
         ++ match snd (consultar autenticar_certificado autenticar_login fuel req) with
            | SemFuel => []
            | _ => [EvLimparTemp]
            end.
Proof.
  intros A. unfold consultar. rewrite A. unfold responder.
  destruct (extrair_contribuinte_sessao s) as (c & n & ->).
  unfold bind at 1.
  destruct (consultar_notas_de_traco s (ConsultaRequest.ano req) (ConsultaRequest.mes req)
              fuel [] 1) as (j & Hj & Ht & _).
  fold (consultar_notas fuel (Some s) (ConsultaRequest.ano req) (ConsultaRequest.mes req))
    in Ht.
  destruct (consultar_notas fuel (Some s) _ _) as [t2 r]. simpl in Ht. subst t2.
  exists j. split; [exact Hj|].
  destruct r as [ns|e|]; simpl; rewrite ?app_nil_r; reflexivity.
Qed.

Lemma consultar_ordem_das_chamadas_witness :
  exists j,
    (j <= 5)%nat /\
    fst (consultar (fun _ _ => inr sessao_duas_paginas)
           (fun _ _ => inr sessao_duas_paginas) 5 req_login_2025)
    = [EvAutenticarLogin "12345678000190" "segredo"]
        ++ EvGet base_url :: gets (paginas_desde 1 j)
        ++ match snd (consultar (fun _ _ => inr sessao_duas_paginas)
                        (fun _ _ => inr sessao_duas_paginas) 5 req_login_2025) with
           | SemFuel => []
           | _ => [EvLimparTemp]
           end.
Proof.
  apply (consultar_ordem_das_chamadas _ _ 5 req_login_2025 _ sessao_duas_paginas).
  reflexivity.
Defined.

(** ** The profile lookup *)

Lemma sem_quebra_primeira_linha (s : string) : sem_quebra (Py.primeira_linha s) = true.
Proof.
  induction s as [|c s IH]; [reflexivity|]. cbn [Py.primeira_linha].
  destruct (Ascii.eqb c "010") eqn:E; [reflexivity|].
  cbn [sem_quebra]. now rewrite E, IH.
Qed.

Lemma sem_quebra_lstrip (s : string) : sem_quebra s = true -> sem_quebra (Py.lstrip s) = true.
Proof.
  induction s as [|c s IH]; [reflexivity|]. cbn [Py.lstrip].
  destruct (Py.isspace c); [|auto].
  cbn [sem_quebra]. intros H. apply andb_prop in H as [_ H]. auto.
Qed.

Lemma sem_quebra_rstrip (s : string) : sem_quebra s = true -> sem_quebra (Py.rstrip s) = true.
Proof.
  induction s as [|c s IH]; [reflexivity|]. cbn [Py.rstrip sem_quebra].
  intros H. apply andb_prop in H as [Hc Hs]. specialize (IH Hs).
  destruct (Py.rstrip s) as [|d r].
  - destruct (Py.isspace c); [reflexivity|]. cbn [sem_quebra]. now rewrite Hc.
  - cbn [sem_quebra] in *. now rewrite Hc, IH.
Qed.

(** X20. The profile lookup never makes the request fail: with or
    without a session, with or without an answer from the portal, it
    returns a pair; the pair is ("N/A", "N/A") when there is no session,
    when the fetch raised or when the page has no profile header; the
    name it returns holds no line feed; and with a session it fetches
    the listing address exactly once. *)
Theorem extrair_contribuinte_nunca_falha (session : option sessao) :
  exists c n,
    snd (extrair_contribuinte session) = Retorna (c, n) /\
    sem_quebra n = true /\
    fst (extrair_contribuinte session)
    = match session with Some _ => [EvGet base_url] | None => [] end /\
    (match session with
     | None => True
     | Some s =>
         match get s base_url with
         | Excecao _ => True
         | Resposta _ text => perfil text = None
         end
     end -> (c, n) = ("N/A", "N/A")).
Proof.
  unfold extrair_contribuinte, session_get.
  destruct session as [s|]; [|exists "N/A", "N/A"; repeat split].
  unfold bind, tell, ret. cbn [fst snd app].
  destruct (get s base_url) as [msg|st text]; [exists "N/A", "N/A"; repeat split|].
  destruct (perfil text) as [[tx cs]|]; [|exists "N/A", "N/A"; repeat split].
  eexists _, _. split; [reflexivity|]. split; [|split; [reflexivity|discriminate]].
  unfold Py.strip at 1. apply sem_quebra_rstrip, sem_quebra_lstrip, sem_quebra_primeira_linha.
Qed.

(** ** Login: the identifier and the errors *)

Lemma so_digitos_cnpj_limpo (s : string) : so_digitos (cnpj_limpo s) = true.
Proof.
  induction s as [|c s IH]; [reflexivity|]. cbn [cnpj_limpo].
  destruct (Py.e_digito c) eqn:E; [|exact IH].
  cbn [so_digitos]. now rewrite E, IH.
Qed.

Lemma cnpj_limpo_so_digitos (s : string) : so_digitos s = true -> cnpj_limpo s = s.
Proof.
  induction s as [|c s IH]; [reflexivity|]. cbn [so_digitos cnpj_limpo].
  intros H. apply andb_prop in H as [Hc Hs]. now rewrite Hc, IH.
Qed.

Lemma cnpj_limpo_app (s1 s2 : string) :
  cnpj_limpo (s1 ++ s2) = (cnpj_limpo s1 ++ cnpj_limpo s2)%string.
Proof.
  induction s1 as [|c s1 IH]; [reflexivity|]. cbn [append cnpj_limpo].
  destruct (Py.e_digito c); [|exact IH]. cbn [append]. now rewrite IH.
Qed.

(** X21. The identifier sent to the portal holds the digits of the
    identifier given, in order, and nothing else: it is all digits, an
    identifier already made of digits is sent as it is, cleaning twice
    changes nothing, and a character that is not a digit can be inserted
    anywhere without effect. *)
Theorem cnpj_limpo_digitos :
  (forall s, so_digitos (cnpj_limpo s) = true) /\
  (forall s, so_digitos s = true -> cnpj_limpo s = s) /\
  (forall s, cnpj_limpo (cnpj_limpo s) = cnpj_limpo s) /\
  (forall s1 c s2, Py.e_digito c = false ->
                   cnpj_limpo (s1 ++ String c s2) = cnpj_limpo (s1 ++ s2)).
Proof.
  split; [exact so_digitos_cnpj_limpo|]. split; [exact cnpj_limpo_so_digitos|]. split.
  - intros s. apply cnpj_limpo_so_digitos, so_digitos_cnpj_limpo.
  - intros s1 c s2 H. rewrite !cnpj_limpo_app. cbn [cnpj_limpo]. now rewrite H.
Qed.

Lemma cnpj_limpo_digitos_witness :
  cnpj_limpo "12.345.678/0001-90" = "12345678000190" /\
  cnpj_limpo "12345678000190" = "12345678000190" /\
  cnpj_limpo ("12" ++ String "." "345") = cnpj_limpo ("12" ++ "345").
Proof.
  destruct cnpj_limpo_digitos as (_ & H2 & _ & H4).
  split; [reflexivity|]. split.
  - exact (H2 "12345678000190" eq_refl).
  - exact (H4 "12" "."%char "345" eq_refl).
Defined.

(** X22. The login depends on the identifier through its digits only:
    two identifiers with the same digits, however punctuated, give the
    same outcome against the same portal. *)
Theorem autenticar_login_formatacao (portal : portal_login) (cnpj cnpj' senha : string) :
  cnpj_limpo cnpj = cnpj_limpo cnpj' ->
  autenticar_login portal cnpj senha = autenticar_login portal cnpj' senha.
Proof.
  intros H. unfold autenticar_login. now rewrite H.
Qed.

Lemma autenticar_login_formatacao_witness :
  autenticar_login portal_aceita "12.345.678/0001-90" "segredo"
  = autenticar_login portal_aceita "12345678000190" "segredo".
Proof.
  apply autenticar_login_formatacao. vm_compute. reflexivity.
Defined.

(** X23. Every failure of the login is an [HTTPException] of status 401:
    a fetch or a post that raises gives its message as detail, a session
    without the cookie [Emissor] gives "Credenciais inválidas". Through
    the handler, such a failure is raised as it is after the single
    authentication attempt. *)
Theorem autenticar_login_401 (portal : portal_login) (cnpj senha : string)
  (e : HTTPException) :
  autenticar_login portal cnpj senha = inl e ->
  status_code e = 401 /\
  (forall token s,
      get_login portal = LoginPagina token ->
      post_login portal
        (match token with Some (Some v) => v | _ => EmptyString end)
        (cnpj_limpo cnpj) senha = PostFeito false s ->
      e = mkHTTPException 401 "Credenciais inválidas") /\
  (forall autenticar_certificado fuel req,
      ConsultaRequest.auth_method req = 2 ->
      ConsultaRequest.cnpj req = Some cnpj -> cnpj <> EmptyString ->
      ConsultaRequest.senha req = Some senha -> senha <> EmptyString ->
      consultar autenticar_certificado (autenticar_login portal) fuel req
      = ([EvAutenticarLogin cnpj senha], Levanta e)).
Proof.
  intros H. split; [|split].
  - unfold autenticar_login in H.
    destruct (get_login portal) as [msg|tk]; [now injection H as <-|].
    destruct (post_login portal _ _ _) as [msg|em s]; [now injection H as <-|].
    destruct em; [discriminate|]. now injection H as <-.
  - intros token s G P. unfold autenticar_login in H. rewrite G in H.
    destruct token as [[v|]|]; rewrite P in H; now injection H as <-.
  - intros ac fuel req Hm Hc Hc' Hs Hs'. unfold consultar, autenticar.
    rewrite Hm, Hc, Hs. simpl.
    destruct cnpj as [|c0 cr]; [contradiction|].
    destruct senha as [|s0 sr]; [contradiction|].
    simpl. unfold bind, tell, autenticado. now rewrite H.
Qed.

Lemma autenticar_login_401_witness :
  status_code (mkHTTPException 401 "Credenciais inválidas") = 401 /\
  consultar (fun _ _ => inr sessao_tres) (autenticar_login portal_recusa) 1 req_login_2025
  = ([EvAutenticarLogin "12345678000190" "segredo"],
     Levanta (mkHTTPException 401 "Credenciais inválidas")).
Proof.
  destruct (autenticar_login_401 portal_recusa "12345678000190" "segredo"
              (mkHTTPException 401 "Credenciais inválidas") eq_refl) as (H1 & _ & H3).
  split; [exact H1|].
  apply (H3 (fun _ _ => inr sessao_tres) 1%nat req_login_2025); try reflexivity;
    discriminate.
Defined.

(** ** Cleanup of the temporary files *)

Lemma caminho_eqb_eq (p q : caminho) : caminho_eqb p q = true <-> p = q.
Proof.
  destruct p as [d n], q as [d' n']. unfold caminho_eqb. simpl.
  rewrite andb_true_iff, !String.eqb_eq. split; [intros [-> ->]|intros [= -> ->]]; auto.
Qed.

Lemma caminho_eqb_refl (p : caminho) : caminho_eqb p p = true.
Proof. now apply caminho_eqb_eq. Qed.

Lemma os_remove_arquivos (p : caminho) (d d' : disco) (f : caminho) :
  os_remove p d = Some d' ->
  (In f (arquivos d') <-> In f (arquivos d) /\ f <> p) /\ diretorios d' = diretorios d.
Proof.
  unfold os_remove. destruct (existsb _ _); [|discriminate]. intros [= <-]. simpl.
  split; [|reflexivity]. rewrite filter_In, negb_true_iff.
  split; intros [H1 H2]; (split; [exact H1|]).
  - intros ->. now rewrite caminho_eqb_refl in H2.
  - destruct (caminho_eqb p f) eqn:E; [|reflexivity].
    apply caminho_eqb_eq in E. congruence.
Qed.

Lemma os_rmdir_diretorios (x : string) (d d' : disco) (y : string) :
  os_rmdir x d = Some d' ->
  (In y (diretorios d') <-> In y (diretorios d) /\ y <> x) /\ arquivos d' = arquivos d.
Proof.
  unfold os_rmdir. destruct (_ && _); [|discriminate]. intros [= <-]. simpl.
  split; [|reflexivity]. rewrite filter_In, negb_true_iff.
  split; intros [H1 H2]; (split; [exact H1|]).
  - intros ->. now rewrite String.eqb_refl in H2.
  - destruct (String.eqb_spec x y); [congruence|reflexivity].
Qed.

(** X24. The cleanup stops at the first removal that fails: when the
    session names a certificate file that is not on the disk, nothing is
    removed at all; the key file and the directory stay where they are. *)
Theorem limpar_temp_para_na_falha (t : temporarios) (d : disco) (p : caminho) :
  temp_cert_path t = Some p ->
  ~ In p (arquivos d) ->
  limpar_temp t d = d.
Proof.
  intros Hp Hn. unfold limpar_temp. rewrite Hp. unfold os_remove.
  destruct (existsb (caminho_eqb p) (arquivos d)) eqn:E; [|reflexivity].
  apply existsb_exists in E as (q & Hq & E). apply caminho_eqb_eq in E. congruence.
Qed.

Lemma limpar_temp_para_na_falha_witness :
  limpar_temp (temporarios_de "/tmp/x") (Disco [("/tmp/x", "key.pem")] ["/tmp/x"])
  = Disco [("/tmp/x", "key.pem")] ["/tmp/x"].
Proof.
  apply (limpar_temp_para_na_falha _ _ ("/tmp/x", "cert.pem")); [reflexivity|].
  simpl. intros [H|[]]. discriminate H.
Defined.

Lemma so_o_que_e_seu_refl (t : temporarios) (d : disco) : so_o_que_e_seu t d d.
Proof. unfold so_o_que_e_seu. auto. Qed.

Lemma so_o_que_e_seu_trans (t : temporarios) (d1 d2 d3 : disco) :
  so_o_que_e_seu t d1 d2 -> so_o_que_e_seu t d2 d3 -> so_o_que_e_seu t d1 d3.
Proof.
  intros (A1 & A2 & A3 & A4) (B1 & B2 & B3 & B4). unfold so_o_que_e_seu.
  repeat split; auto.
Qed.

Lemma os_remove_so_o_que_e_seu (t : temporarios) (p : caminho) (d d' : disco) :
  temp_cert_path t = Some p \/ temp_key_path t = Some p ->
  os_remove p d = Some d' -> so_o_que_e_seu t d d'.
Proof.
  intros Hp H. unfold so_o_que_e_seu.
  pose proof (fun f => proj1 (os_remove_arquivos p d d' f H)) as A.
  pose proof (proj2 (os_remove_arquivos p d d' p H)) as B.
  rewrite B. repeat split; auto.
  - intros f Hf N1 N2. apply A. split; [exact Hf|].
    intros ->. destruct Hp; contradiction.
  - intros f Hf. now apply A in Hf.
Qed.

Lemma os_rmdir_so_o_que_e_seu (t : temporarios) (x : string) (d d' : disco) :
  temp_dir t = Some x -> os_rmdir x d = Some d' -> so_o_que_e_seu t d d'.
Proof.
  intros Hx H. unfold so_o_que_e_seu.
  pose proof (fun y => proj1 (os_rmdir_diretorios x d d' y H)) as A.
  pose proof (proj2 (os_rmdir_diretorios x d d' x H)) as B.
  rewrite B. repeat split; auto.
  - intros y Hy N. apply A. split; [exact Hy|]. intros ->. contradiction.
  - intros y Hy. now apply A in Hy.
Qed.

(** X25. The cleanup never removes anything but what the session names:
    a file other than the certificate and key files of the session, and
    a directory other than its temporary directory, are on the disk
    afterwards if they were before; and nothing is ever created. *)
Theorem limpar_temp_so_o_que_e_seu (t : temporarios) (d : disco) :
  so_o_que_e_seu t d (limpar_temp t d).
Proof.
  unfold limpar_temp.
  assert (S1 : forall d1,
             match temp_cert_path t with Some p => os_remove p d | None => Some d end
             = Some d1 -> so_o_que_e_seu t d d1).
  { intros d1. destruct (temp_cert_path t) as [p|] eqn:E.
    - apply os_remove_so_o_que_e_seu. now left.
    - intros [= <-]. apply so_o_que_e_seu_refl. }
  destruct (match temp_cert_path t with Some p => os_remove p d | None => Some d end)
    as [d1|]; [|apply so_o_que_e_seu_refl].
  specialize (S1 d1 eq_refl).
  assert (S2 : forall d2,
             match temp_key_path t with Some p => os_remove p d1 | None => Some d1 end
             = Some d2 -> so_o_que_e_seu t d1 d2).
  { intros d2. destruct (temp_key_path t) as [p|] eqn:E.
    - apply os_remove_so_o_que_e_seu. now right.
    - intros [= <-]. apply so_o_que_e_seu_refl. }
  destruct (match temp_key_path t with Some p => os_remove p d1 | None => Some d1 end)
    as [d2|]; [|exact S1].
  specialize (S2 d2 eq_refl).
  pose proof (so_o_que_e_seu_trans t d d1 d2 S1 S2) as S12.
  assert (S3 : forall d3,
             match temp_dir t with Some x => os_rmdir x d2 | None => Some d2 end
             = Some d3 -> so_o_que_e_seu t d2 d3).
  { intros d3. destruct (temp_dir t) as [x|] eqn:E.
    - now apply os_rmdir_so_o_que_e_seu.
    - intros [= <-]. apply so_o_que_e_seu_refl. }
  destruct (match temp_dir t with Some x => os_rmdir x d2 | None => Some d2 end)
    as [d3|]; [|exact S12].
  exact (so_o_que_e_seu_trans t d d2 d3 S12 (S3 d3 eq_refl)).
Qed.

(** X26. When the certificate and key files of [autenticar_certificado]
    are on the disk and their directory exists, the cleanup removes both
    files; and when the directory holds nothing else, it removes the
    directory too. *)
Theorem limpar_temp_remove_tudo (dir : string) (d : disco) :
  In (dir, "cert.pem") (arquivos d) ->
  In (dir, "key.pem") (arquivos d) ->
  In dir (diretorios d) ->
  ~ In (dir, "cert.pem") (arquivos (limpar_temp (temporarios_de dir) d)) /\
  ~ In (dir, "key.pem") (arquivos (limpar_temp (temporarios_de dir) d)) /\
  ((forall f, In f (arquivos d) -> fst f = dir -> f = (dir, "cert.pem") \/ f = (dir, "key.pem")) ->
   ~ In dir (diretorios (limpar_temp (temporarios_de dir) d))).
Proof.
  intros Hc Hk Hd. unfold limpar_temp, temporarios_de.
  cbn [temp_cert_path temp_key_path temp_dir].
  destruct (os_remove (dir, "cert.pem") d) as [d1|] eqn:E1.
  2:{ unfold os_remove in E1.
      destruct (existsb (caminho_eqb (dir, "cert.pem")) (arquivos d)) eqn:X; [discriminate|].
      exfalso. rewrite <- not_true_iff_false in X. apply X.
      apply existsb_exists. exists (dir, "cert.pem"). split; [exact Hc|apply caminho_eqb_refl]. }
  pose proof (fun f => proj1 (os_remove_arquivos _ _ _ f E1)) as A1.
  pose proof (proj2 (os_remove_arquivos _ _ _ (dir, "cert.pem") E1)) as B1.
  assert (Hk1 : In (dir, "key.pem") (arquivos d1)).
  { apply A1. split; [exact Hk|]. intros [= H]. }
  destruct (os_remove (dir, "key.pem") d1) as [d2|] eqn:E2.
  2:{ unfold os_remove in E2.
      destruct (existsb (caminho_eqb (dir, "key.pem")) (arquivos d1)) eqn:X; [discriminate|].
      exfalso. rewrite <- not_true_iff_false in X. apply X.
      apply existsb_exists. exists (dir, "key.pem"). split; [exact Hk1|apply caminho_eqb_refl]. }
  pose proof (fun f => proj1 (os_remove_arquivos _ _ _ f E2)) as A2.
  pose proof (proj2 (os_remove_arquivos _ _ _ (dir, "key.pem") E2)) as B2.
  assert (N1 : ~ In (dir, "cert.pem") (arquivos d2)).
  { intros H. apply A2 in H as [H _]. apply A1 in H as [_ H]. now apply H. }
  assert (N2 : ~ In (dir, "key.pem") (arquivos d2)).
  { intros H. apply A2 in H as [_ H]. now apply H. }
  destruct (os_rmdir dir d2) as [d3|] eqn:E3.
  - pose proof (fun y => proj1 (os_rmdir_diretorios _ _ _ y E3)) as A3.
    pose proof (proj2 (os_rmdir_diretorios _ _ _ dir E3)) as B3.
    rewrite B3. split; [exact N1|]. split; [exact N2|].
    intros _ H. apply A3 in H as [_ H]. now apply H.
  - split; [exact N1|]. split; [exact N2|].
    intros Ho H. unfold os_rmdir in E3.
    destruct (existsb (String.eqb dir) (diretorios d2)) eqn:X1.
    + destruct (existsb (fun q => String.eqb dir (fst q)) (arquivos d2)) eqn:X2;
        [|discriminate].
      apply existsb_exists in X2 as (q & Hq & Eq). apply String.eqb_eq in Eq.
      pose proof Hq as Hq2.
      apply A2 in Hq as [Hq Nk]. apply A1 in Hq as [Hq Nc].
      destruct (Ho q Hq (eq_sym Eq)); contradiction.
    + rewrite <- not_true_iff_false in X1. apply X1.
      apply existsb_exists. exists dir. split; [exact H|apply String.eqb_refl].
Qed.

Lemma limpar_temp_remove_tudo_witness :
  ~ In ("/tmp/x", "cert.pem")
       (arquivos (limpar_temp (temporarios_de "/tmp/x")
                    (Disco [("/tmp/x", "cert.pem"); ("/tmp/x", "key.pem"); ("/etc", "hosts")]
                           ["/tmp/x"; "/etc"]))) /\
  ~ In ("/tmp/x", "key.pem")
       (arquivos (limpar_temp (temporarios_de "/tmp/x")
                    (Disco [("/tmp/x", "cert.pem"); ("/tmp/x", "key.pem"); ("/etc", "hosts")]
                           ["/tmp/x"; "/etc"]))).
Proof.
  destruct (limpar_temp_remove_tudo "/tmp/x"
              (Disco [("/tmp/x", "cert.pem"); ("/tmp/x", "key.pem"); ("/etc", "hosts")]
                     ["/tmp/x"; "/etc"])) as (H1 & H2 & _); simpl; auto.
Defined.
